(** * Devbox handle: convergence and consistency engine

    A shallow embedding of [devbox.go] (package [devbox]): the read
    accessors of a handle, [RefreshInfo], the readiness loop
    [WaitForReady], the desired-state mutations, [Delete],
    [SSHConnectionString] and [CreateRelease].

    Conventions.
    - A Go [string] is a byte sequence: Rocq's [string] (a list of 8-bit
      [ascii]).
    - [time.Duration] is an [int64] count of nanoseconds, a [Z] here;
      [time.Time] is a [Z] count of nanoseconds on the wall clock.
    - [float64] is Rocq's primitive binary64 float.
    - Go's [error] interface is the inductive [error]; a nil error is
      [None].
    - The Resource Client, the clock and the cancellation context are
      collaborators outside this file: they are the operations of two
      type classes over an abstract [World], and every theorem holds for
      every instance. *)

From Stdlib Require Import ZArith List Bool Ascii String Lia.
From Stdlib Require Import Floats.PrimFloat Floats.SpecFloat Floats.FloatOps.
From stdpp Require Import gmap strings.

Local Open Scope string_scope.
Local Open Scope Z_scope.

(** ** Time and floating point *)

Definition Duration := Z.
Definition Time := Z.

Definition Nanosecond : Duration := 1.
Definition Millisecond : Duration := 1000000.
Definition Second : Duration := 1000000000.

Definition minInt64 : Z := -9223372036854775808.
Definition maxInt64 : Z := 9223372036854775807.

(** [float64(x)] for an [int64] x: the nearest binary64 value, ties to
    even. *)
Definition float64_of_int64 (x : Z) : float :=
  SF2Prim (binary_normalize prec emax x 0 false).

(** The integer part of a finite binary64 value (rounding toward zero). *)
Definition trunc_float (f : float) : option Z :=
  match Prim2SF f with
  | S754_zero _ => Some 0
  | S754_finite s m e =>
      let a := Z.shiftl (Zpos m) e in
      Some (if s then - a else a)
  | S754_infinity _ | S754_nan => None
  end.

(** [int64(f)] for a [float64] f: truncation toward zero.  Go leaves the
    result of an out-of-range conversion to the implementation; the value
    chosen here is the one amd64 produces (the smallest [int64]). *)
Definition int64_of_float64 (f : float) : Z :=
  match trunc_float f with
  | Some z => if (minInt64 <=? z) && (z <=? maxInt64) then z else minInt64
  | None => minInt64
  end.

(** ** Strings: [string(rune(n))] and decimal formatting *)

Definition byte (n : Z) : ascii := ascii_of_N (Z.to_N n).

Definition RuneError : Z := 65533. (* U+FFFD *)

(** [utf8.EncodeRune] on a valid code point. *)
Definition encoderune (r : Z) : string :=
  if r <=? 127 then
    String (byte r) EmptyString
  else if r <=? 2047 then
    String (byte (Z.lor 192 (Z.shiftr r 6)))
      (String (byte (Z.lor 128 (Z.land r 63))) EmptyString)
  else if r <=? 65535 then
    String (byte (Z.lor 224 (Z.shiftr r 12)))
      (String (byte (Z.lor 128 (Z.land (Z.shiftr r 6) 63)))
         (String (byte (Z.lor 128 (Z.land r 63))) EmptyString))
  else
    String (byte (Z.lor 240 (Z.shiftr r 18)))
      (String (byte (Z.lor 128 (Z.land (Z.shiftr r 12) 63)))
         (String (byte (Z.lor 128 (Z.land (Z.shiftr r 6) 63)))
            (String (byte (Z.lor 128 (Z.land r 63))) EmptyString))).

(** The conversion [string(rune(n))]: the UTF-8 encoding of code point
    [n]; a value that is no valid code point (negative, a surrogate, above
    U+10FFFF) converts to the encoding of U+FFFD. *)
Definition string_of_rune (n : Z) : string :=
  if (n <? 0) || (1114111 <? n) || ((55296 <=? n) && (n <=? 57343))
  then encoderune RuneError
  else encoderune n.

Definition digit (d : Z) : ascii := byte (48 + d).

Fixpoint digits (fuel : nat) (n : Z) (acc : string) : string :=
  match fuel with
  | O => acc
  | S fuel' =>
      let acc' := String (digit (n mod 10)) acc in
      if n <? 10 then acc' else digits fuel' (n / 10) acc'
  end.

(** The ordinary decimal representation of an integer (what
    [strconv.Itoa] prints); twenty digits cover every [int64]. *)
Definition Itoa (n : Z) : string :=
  if n <? 0 then String "-"%char (digits 20 (- n) EmptyString)
  else digits 20 n EmptyString.

(** ** Remote resource records (package [v1alpha2]) *)

Module v1alpha2.

Definition DevboxState := string.
Definition DevboxPhase := string.
Definition NetworkType := string.

(** Modelled from the spec: the constants of package [api/v1alpha2],
    which is not part of the sources at hand.  The desired states are
    the closed set Running / Paused / Stopped / Shutdown, the ready phase
    is Running, and the network kinds are NodePort / Tailnet / SSHGate. *)
Definition DevboxStateRunning : DevboxState := "Running".
Definition DevboxStatePaused : DevboxState := "Paused".
Definition DevboxStateStopped : DevboxState := "Stopped".
Definition DevboxStateShutdown : DevboxState := "Shutdown".
Definition DevboxPhaseRunning : DevboxPhase := "Running".
Definition NetworkTypeNodePort : NetworkType := "NodePort".
Definition NetworkTypeTailnet : NetworkType := "Tailnet".
Definition NetworkTypeSSHGate : NetworkType := "SSHGate".

(** A [resource.Quantity], by the two readings the handle takes of it. *)
Record Quantity := mkQuantity {
  MilliValue : Z;
  Value : Z
}.

Record ContainerPort := mkContainerPort {
  cpName : string;
  cpContainerPort : Z
}.

Record ServicePort := mkServicePort {
  spName : string;
  spPort : Z
}.

Record Config := mkConfig {
  WorkingDir : string;
  User : string;
  Ports : list ContainerPort;
  AppPorts : list ServicePort
}.

Record DevboxSpec := mkDevboxSpec {
  State : DevboxState;
  Image : string;
  Resource : gmap string Quantity;
  SpecConfig : Config
}.

Record NetworkStatus := mkNetworkStatus {
  Type_ : NetworkType;
  NodePort : Z;        (* int32 *)
  UniqueID : string
}.

Record DevboxStatus := mkDevboxStatus {
  Phase : DevboxPhase;
  Network : NetworkStatus;
  Node : string
}.

Record Devbox := mkDevbox {
  Name : string;
  UID : string;
  CreationTimestamp : Time;
  Spec : DevboxSpec;
  Status : DevboxStatus
}.

Record DevBoxReleaseSpec := mkDevBoxReleaseSpec {
  DevboxName : string;
  Version : string;
  Notes : string;
  StartDevboxAfterRelease : bool
}.

Record DevBoxReleaseStatus := mkDevBoxReleaseStatus {
  ReleasePhase : string;
  SourceImage : string;
  TargetImage : string
}.

Record DevBoxRelease := mkDevBoxRelease {
  ReleaseName : string;
  ReleaseSpec : DevBoxReleaseSpec;
  ReleaseStatus : DevBoxReleaseStatus
}.

(** The zero value [&v1alpha2.DevBoxRelease{}]. *)
Definition zeroDevBoxRelease : DevBoxRelease :=
  mkDevBoxRelease EmptyString
  (mkDevBoxReleaseSpec EmptyString EmptyString EmptyString false)
  (mkDevBoxReleaseStatus EmptyString EmptyString EmptyString).

End v1alpha2.

(** ** Options of the readiness loop (package [types]) *)

Module types.

(** Modelled from the spec: [types.WaitForReadyOptions] is declared
    outside the sources at hand; its six fields are the ones
    [WaitForReady] reads.  [UseExponentialBackoff] is a [*bool]: [None]
    is the nil pointer. *)
Record WaitForReadyOptions := mkWaitForReadyOptions {
  Timeout : Duration;
  InitialCheckInterval : Duration;
  MaxCheckInterval : Duration;
  BackoffMultiplier : float;
  UseExponentialBackoff : option bool;
  CheckInterval : Duration
}.

(** The zero value: every option unset. *)
Definition zeroOptions : WaitForReadyOptions :=
  mkWaitForReadyOptions 0 0 0 0%float None 0.

End types.


(** ** Errors *)

(** [TimeoutError]: the error the readiness loop itself raises. *)
Record TimeoutError := mkTimeoutError {
  message : string;
  timeout : Duration
}.

(** What [ctx.Err()] reports once [ctx.Done()] is closed. *)
Inductive ContextError := Canceled | DeadlineExceeded.

(** An error value handed back by the Resource Client, kept opaque. *)
Definition ClientError := string.

(** A non-nil Go [error] seen by a caller of the handle, by provenance. *)
Inductive error :=
| ErrClient (e : ClientError)
| ErrContext (e : ContextError)
| ErrTimeout (e : TimeoutError).

(** ** Collaborators *)

(** Calls that leave the process, in the order they are made. *)
Inductive Event :=
| EvNow (t : Time)
| EvGet (name : string) (r : ClientError + v1alpha2.Devbox)
| EvUpdateState (name : string) (state : v1alpha2.DevboxState)
    (r : option ClientError)
| EvDelete (name : string) (r : option ClientError)
| EvCreateRelease (req : v1alpha2.DevBoxRelease)
    (r : ClientError + v1alpha2.DevBoxRelease)
| EvWait (interval : Duration) (r : option ContextError).

(** Modelled from the spec: the Resource Client ([d.sdk.client]), whose
    code is outside the sources at hand.  Each operation takes the
    resource name or record, may change the remote world, and reports
    success or an error.  The context argument of the Go methods is part
    of the world. *)
Class ResourceClient (World : Type) := {
  client_Get : string -> World -> (ClientError + v1alpha2.Devbox) * World;
  client_UpdateState :
    string -> v1alpha2.DevboxState -> World -> option ClientError * World;
  client_Delete : string -> World -> option ClientError * World;
  client_CreateRelease :
    v1alpha2.DevBoxRelease -> World ->
    (ClientError + v1alpha2.DevBoxRelease) * World
}.

(** The clock and the cancellation context.  [time_Now] is [time.Now()].
    [ctx_wait interval] is the statement
    [select { case <-ctx.Done(): ...; case <-time.After(interval): }]:
    [Some e] when the [ctx.Done()] case is taken, [e] being [ctx.Err()];
    [None] when the timer case is taken. *)
Class Runtime (World : Type) := {
  time_Now : World -> Time * World;
  ctx_wait : Duration -> World -> option ContextError * World
}.

(** ** The handle and the state it runs in *)

(** [Devbox]: the handle.  Its [sdk] pointer is the ambient [Sys] below. *)
Record Devbox := mkHandle {
  crd : v1alpha2.Devbox
}.

(** The state a method of a handle [d] runs in: the world behind
    [d.sdk.client], the shared [d.sdk.cache], the handle itself, and the
    calls made so far. *)
Record Sys (World : Type) := mkSys {
  world : World;
  cache : gmap string v1alpha2.Devbox;
  self : Devbox;
  trace : list Event
}.
Arguments mkSys {World} _ _ _ _.
Arguments world {World} _.
Arguments cache {World} _.
Arguments self {World} _.
Arguments trace {World} _.

(** ** Read accessors *)

Definition Name (d : Devbox) : string := v1alpha2.Name (crd d).
Definition UID (d : Devbox) : string := v1alpha2.UID (crd d).
Definition Status (d : Devbox) : string :=
  v1alpha2.Phase (v1alpha2.Status (crd d)).
Definition State (d : Devbox) : string :=
  v1alpha2.State (v1alpha2.Spec (crd d)).
Definition Image (d : Devbox) : string :=
  v1alpha2.Image (v1alpha2.Spec (crd d)).
Definition CreatedAt (d : Devbox) : Time := v1alpha2.CreationTimestamp (crd d).

Definition ResourceCPU : string := "cpu".
Definition ResourceMemory : string := "memory".

Definition CPULimit (d : Devbox) : float :=
  match v1alpha2.Resource (v1alpha2.Spec (crd d)) !! ResourceCPU with
  | Some cpu => (float64_of_int64 (v1alpha2.MilliValue cpu) / 1000)%float
  | None => 0%float
  end.

Definition MemoryLimit (d : Devbox) : float :=
  match v1alpha2.Resource (v1alpha2.Spec (crd d)) !! ResourceMemory with
  | Some mem =>
      (float64_of_int64 (v1alpha2.Value mem)
       / float64_of_int64 (1024 * 1024 * 1024))%float
  | None => 0%float
  end.

Definition NetworkType (d : Devbox) : string :=
  v1alpha2.Type_ (v1alpha2.Network (v1alpha2.Status (crd d))).
Definition NodePort (d : Devbox) : Z :=
  v1alpha2.NodePort (v1alpha2.Network (v1alpha2.Status (crd d))).
Definition NetworkUniqueID (d : Devbox) : string :=
  v1alpha2.UniqueID (v1alpha2.Network (v1alpha2.Status (crd d))).
Definition Node (d : Devbox) : string :=
  v1alpha2.Node (v1alpha2.Status (crd d)).
Definition WorkingDir (d : Devbox) : string :=
  v1alpha2.WorkingDir (v1alpha2.SpecConfig (v1alpha2.Spec (crd d))).
Definition User (d : Devbox) : string :=
  v1alpha2.User (v1alpha2.SpecConfig (v1alpha2.Spec (crd d))).
Definition Ports (d : Devbox) : list v1alpha2.ContainerPort :=
  v1alpha2.Ports (v1alpha2.SpecConfig (v1alpha2.Spec (crd d))).
Definition AppPorts (d : Devbox) : list v1alpha2.ServicePort :=
  v1alpha2.AppPorts (v1alpha2.SpecConfig (v1alpha2.Spec (crd d))).
Definition CRD (d : Devbox) : v1alpha2.Devbox := crd d.

(** [isReady]: the observed phase is the single ready phase. *)
Definition isReady (d : Devbox) : bool :=
  String.eqb (v1alpha2.Phase (v1alpha2.Status (crd d)))
             v1alpha2.DevboxPhaseRunning.

(** [SSHConnectionString]: a [switch] over the network kind. *)
Definition SSHConnectionString (d : Devbox) : string :=
  let network := v1alpha2.Network (v1alpha2.Status (crd d)) in
  if String.eqb (v1alpha2.Type_ network) v1alpha2.NetworkTypeSSHGate then
    v1alpha2.UniqueID network ++ "@bja.sealos.run"
  else if String.eqb (v1alpha2.Type_ network) v1alpha2.NetworkTypeNodePort then
    v1alpha2.User (v1alpha2.SpecConfig (v1alpha2.Spec (crd d)))
      ++ "@<node-ip>:" ++ string_of_rune (v1alpha2.NodePort network)
  else
    EmptyString.

(** What the specification asks of the NodePort case: the port in its
    ordinary decimal representation.  Stated from the specification's
    words, for comparison with [SSHConnectionString]. *)
Definition SSHConnectionString_spec (d : Devbox) : string :=
  let network := v1alpha2.Network (v1alpha2.Status (crd d)) in
  if String.eqb (v1alpha2.Type_ network) v1alpha2.NetworkTypeSSHGate then
    v1alpha2.UniqueID network ++ "@bja.sealos.run"
  else if String.eqb (v1alpha2.Type_ network) v1alpha2.NetworkTypeNodePort then
    v1alpha2.User (v1alpha2.SpecConfig (v1alpha2.Spec (crd d)))
      ++ "@<node-ip>:" ++ Itoa (v1alpha2.NodePort network)
  else
    EmptyString.

(** ** Release handles *)

Record Release := mkRelease {
  release_crd : v1alpha2.DevBoxRelease
}.

Record ReleaseConfig := mkReleaseConfig {
  cfgVersion : string;
  cfgNotes : string;
  cfgStartDevboxAfterRelease : bool
}.

Definition Release_Name (r : Release) : string :=
  v1alpha2.ReleaseName (release_crd r).
Definition Release_Version (r : Release) : string :=
  v1alpha2.Version (v1alpha2.ReleaseSpec (release_crd r)).
Definition Release_Phase (r : Release) : string :=
  v1alpha2.ReleasePhase (v1alpha2.ReleaseStatus (release_crd r)).
Definition Release_Notes (r : Release) : string :=
  v1alpha2.Notes (v1alpha2.ReleaseSpec (release_crd r)).

(** ** The Local Cache *)

(** Modelled from the spec: the cache [d.sdk.cache], declared outside the
    sources at hand.  [Set] upserts and overwrites unconditionally,
    [Delete] removes the entry if present and does nothing otherwise. *)
Definition cache_Set (name : string) (snapshot : v1alpha2.Devbox)
    (c : gmap string v1alpha2.Devbox) : gmap string v1alpha2.Devbox :=
  <[name := snapshot]> c.

Definition cache_Delete (name : string)
    (c : gmap string v1alpha2.Devbox) : gmap string v1alpha2.Devbox :=
  delete name c.

(** ** A state monad for the methods of a handle *)

Definition M (World A : Type) : Type := Sys World -> A * Sys World.

Definition ret {World A : Type} (a : A) : M World A := fun s => (a, s).

Definition bind {World A B : Type} (m : M World A) (k : A -> M World B)
    : M World B :=
  fun s => let (a, s') := m s in k a s'.

Notation "x <- m ;; k" := (bind m (fun x => k))
  (at level 100, m at next level, right associativity).
Notation "m ;;; k" := (bind m (fun _ => k))
  (at level 100, right associativity).

Section Methods.

Context {World : Type} `{ResourceClient World} `{Runtime World}.

(** *** Primitive actions *)

Definition getSelf : M World Devbox := fun s => (self s, s).

(** The assignment [d.crd = devbox]. *)
Definition setCrd (devbox : v1alpha2.Devbox) : M World unit :=
  fun s => (tt, mkSys (world s) (cache s) (mkHandle devbox) (trace s)).

Definition modifyCache
    (f : gmap string v1alpha2.Devbox -> gmap string v1alpha2.Devbox)
    : M World unit :=
  fun s => (tt, mkSys (world s) (f (cache s)) (self s) (trace s)).

(** A call to a collaborator: run it on the world and record it. *)
Definition call {A : Type} (op : World -> A * World) (ev : A -> Event)
    : M World A :=
  fun s =>
    let (a, w) := op (world s) in
    (a, mkSys w (cache s) (self s) (trace s ++ [ev a])).

Definition now : M World Time := call time_Now EvNow.

Definition sleepOrDone (interval : Duration) : M World (option ContextError) :=
  call (ctx_wait interval) (EvWait interval).

Definition clientGet (name : string)
    : M World (ClientError + v1alpha2.Devbox) :=
  call (client_Get name) (EvGet name).

Definition clientUpdateState (name : string) (state : v1alpha2.DevboxState)
    : M World (option error) :=
  r <- call (client_UpdateState name state) (EvUpdateState name state) ;;
  ret (option_map ErrClient r).

Definition clientDelete (name : string) : M World (option ClientError) :=
  call (client_Delete name) (EvDelete name).

Definition clientCreateRelease (req : v1alpha2.DevBoxRelease)
    : M World (ClientError + v1alpha2.DevBoxRelease) :=
  call (client_CreateRelease req) (EvCreateRelease req).

(** *** RefreshInfo *)

Definition RefreshInfo : M World (option error) :=
  d <- getSelf ;;
  r <- clientGet (v1alpha2.Name (crd d)) ;;
  match r with
  | inl err => ret (Some (ErrClient err))
  | inr devbox =>
      setCrd devbox ;;;
      d <- getSelf ;;
      modifyCache (cache_Set (v1alpha2.Name (crd d)) devbox) ;;;
      ret None
  end.

(** *** Desired-state mutations and Delete *)

Definition Start : M World (option error) :=
  d <- getSelf ;;
  clientUpdateState (v1alpha2.Name (crd d)) v1alpha2.DevboxStateRunning.

Definition Pause : M World (option error) :=
  d <- getSelf ;;
  clientUpdateState (v1alpha2.Name (crd d)) v1alpha2.DevboxStatePaused.

Definition Stop : M World (option error) :=
  d <- getSelf ;;
  clientUpdateState (v1alpha2.Name (crd d)) v1alpha2.DevboxStateStopped.

Definition Shutdown : M World (option error) :=
  d <- getSelf ;;
  clientUpdateState (v1alpha2.Name (crd d)) v1alpha2.DevboxStateShutdown.

Definition Delete : M World (option error) :=
  d <- getSelf ;;
  r <- clientDelete (v1alpha2.Name (crd d)) ;;
  match r with
  | Some err => ret (Some (ErrClient err))
  | None =>
      d <- getSelf ;;
      modifyCache (cache_Delete (v1alpha2.Name (crd d))) ;;;
      ret None
  end.

(** *** CreateRelease *)

(** The request [CreateRelease] builds before it calls the client. *)
Definition releaseRequest (d : Devbox) (cfg : ReleaseConfig)
    : v1alpha2.DevBoxRelease :=
  let release := v1alpha2.zeroDevBoxRelease in
  v1alpha2.mkDevBoxRelease
    (v1alpha2.Name (crd d) ++ "-" ++ cfgVersion cfg)
    (v1alpha2.mkDevBoxReleaseSpec
       (v1alpha2.Name (crd d))
       (cfgVersion cfg)
       (cfgNotes cfg)
       (cfgStartDevboxAfterRelease cfg))
    (v1alpha2.ReleaseStatus release).

Definition CreateRelease (cfg : ReleaseConfig) : M World (error + Release) :=
  d <- getSelf ;;
  let release := releaseRequest d cfg in
  r <- clientCreateRelease release ;;
  match r with
  | inl err => ret (inl (ErrClient err))
  | inr created => ret (inr (mkRelease created))
  end.

(** *** WaitForReady *)

(** The defaults [WaitForReady] fills in for unset (zero) options. *)
Definition timeoutOf (opts : types.WaitForReadyOptions) : Duration :=
  if types.Timeout opts =? 0 then 300 * Second else types.Timeout opts.

Definition initialIntervalOf (opts : types.WaitForReadyOptions) : Duration :=
  if types.InitialCheckInterval opts =? 0 then 200 * Millisecond
  else types.InitialCheckInterval opts.

Definition maxIntervalOf (opts : types.WaitForReadyOptions) : Duration :=
  if types.MaxCheckInterval opts =? 0 then 5 * Second
  else types.MaxCheckInterval opts.

Definition backoffMultiplierOf (opts : types.WaitForReadyOptions) : float :=
  if (types.BackoffMultiplier opts =? 0)%float then 1.5%float
  else types.BackoffMultiplier opts.

Definition useExponentialBackoffOf (opts : types.WaitForReadyOptions) : bool :=
  let useExponentialBackoff := true in
  let useExponentialBackoff :=
    match types.UseExponentialBackoff opts with
    | Some b => b
    | None => useExponentialBackoff
    end in
  if types.CheckInterval opts >? 0 then false else useExponentialBackoff.

Definition firstIntervalOf (opts : types.WaitForReadyOptions) : Duration :=
  let interval := initialIntervalOf opts in
  if negb (useExponentialBackoffOf opts) && (types.CheckInterval opts >? 0)
  then types.CheckInterval opts
  else interval.

(** The interval after one more unsuccessful poll. *)
Definition nextInterval (useExponentialBackoff : bool)
    (backoffMultiplier : float) (maxInterval interval : Duration)
    : Duration :=
  if useExponentialBackoff then
    let interval :=
      int64_of_float64 (float64_of_int64 interval * backoffMultiplier)%float in
    if interval >? maxInterval then maxInterval else interval
  else interval.

Definition timeoutError (timeout : Duration) : error :=
  ErrTimeout (mkTimeoutError "waiting for devbox to be ready" timeout).

(** The [for] loop.  [fuel] bounds the number of iterations; the result
    is [None] when it runs out, [Some r] when the loop returns [r]. *)
Fixpoint waitLoop (fuel : nat) (timeout : Duration) (deadline : Time)
    (maxInterval : Duration) (backoffMultiplier : float)
    (useExponentialBackoff : bool) (interval : Duration)
    : M World (option (option error)) :=
  match fuel with
  | O => ret None
  | S fuel' =>
      t <- now ;;
      if t >? deadline then ret (Some (Some (timeoutError timeout)))
      else
        r <- RefreshInfo ;;
        match r with
        | Some err => ret (Some (Some err))
        | None =>
            d <- getSelf ;;
            if isReady d then ret (Some None)
            else
              c <- sleepOrDone interval ;;
              match c with
              | Some e => ret (Some (Some (ErrContext e)))
              | None =>
                  waitLoop fuel' timeout deadline maxInterval
                    backoffMultiplier useExponentialBackoff
                    (nextInterval useExponentialBackoff backoffMultiplier
                       maxInterval interval)
              end
        end
  end.

Definition WaitForReady (fuel : nat) (opts : types.WaitForReadyOptions)
    : M World (option (option error)) :=
  let timeout := timeoutOf opts in
  let initialInterval := initialIntervalOf opts in
  let maxInterval := maxIntervalOf opts in
  let backoffMultiplier := backoffMultiplierOf opts in
  let useExponentialBackoff := useExponentialBackoffOf opts in
  t0 <- now ;;
  let deadline := t0 + timeout in
  let interval := firstIntervalOf opts in
  waitLoop fuel timeout deadline maxInterval backoffMultiplier
    useExponentialBackoff interval.

End Methods.

(** ** A simulated control plane

    A small executable instance of the collaborators, used to run the
    methods on concrete inputs: a remote store of records, a clock that
    advances by a fixed latency on every client call and by the interval
    on every wait, a time from which the control plane reports the ready
    phase, an optional time at which the context is cancelled, and a
    switch that makes every client call fail. *)

Module Sim.

Record World := mkWorld {
  clock : Time;
  remote : gmap string v1alpha2.Devbox;
  readyAt : Time;
  cancelAt : option Time;
  latency : Duration;
  down : bool
}.

Definition tick (w : World) : World :=
  mkWorld (clock w + latency w) (remote w) (readyAt w) (cancelAt w)
          (latency w) (down w).

Definition withRemote (w : World) (r : gmap string v1alpha2.Devbox) : World :=
  mkWorld (clock w) r (readyAt w) (cancelAt w) (latency w) (down w).

Definition withClock (w : World) (t : Time) : World :=
  mkWorld t (remote w) (readyAt w) (cancelAt w) (latency w) (down w).

Definition withPhase (c : v1alpha2.Devbox) (p : v1alpha2.DevboxPhase)
    : v1alpha2.Devbox :=
  v1alpha2.mkDevbox (v1alpha2.Name c) (v1alpha2.UID c)
    (v1alpha2.CreationTimestamp c) (v1alpha2.Spec c)
    (v1alpha2.mkDevboxStatus p
       (v1alpha2.Network (v1alpha2.Status c))
       (v1alpha2.Node (v1alpha2.Status c))).

Definition withState (c : v1alpha2.Devbox) (st : v1alpha2.DevboxState)
    : v1alpha2.Devbox :=
  v1alpha2.mkDevbox (v1alpha2.Name c) (v1alpha2.UID c)
    (v1alpha2.CreationTimestamp c)
    (v1alpha2.mkDevboxSpec st
       (v1alpha2.Image (v1alpha2.Spec c))
       (v1alpha2.Resource (v1alpha2.Spec c))
       (v1alpha2.SpecConfig (v1alpha2.Spec c)))
    (v1alpha2.Status c).

Definition get (name : string) (w : World)
    : (ClientError + v1alpha2.Devbox) * World :=
  let w := tick w in
  if down w then (inl "unavailable", w)
  else match remote w !! name with
       | None => (inl "not found", w)
       | Some c =>
           (inr (withPhase c (if readyAt w <=? clock w
                              then "Running" else "Pending")), w)
       end.

Definition updateState (name : string) (st : v1alpha2.DevboxState)
    (w : World) : option ClientError * World :=
  let w := tick w in
  if down w then (Some "unavailable", w)
  else match remote w !! name with
       | None => (Some "not found", w)
       | Some c => (None, withRemote w (<[name := withState c st]> (remote w)))
       end.

Definition delete (name : string) (w : World) : option ClientError * World :=
  let w := tick w in
  if down w then (Some "unavailable", w)
  else match remote w !! name with
       | None => (Some "not found", w)
       | Some _ => (None, withRemote w (base.delete name (remote w)))
       end.

Definition createRelease (req : v1alpha2.DevBoxRelease) (w : World)
    : (ClientError + v1alpha2.DevBoxRelease) * World :=
  let w := tick w in
  if down w then (inl "unavailable", w)
  else (inr (v1alpha2.mkDevBoxRelease (v1alpha2.ReleaseName req)
               (v1alpha2.ReleaseSpec req)
               (v1alpha2.mkDevBoxReleaseStatus "Pending" EmptyString
                  EmptyString)), w).

(** The wait: the context wins when it is cancelled before the timer
    would fire. *)
Definition wait (interval : Duration) (w : World)
    : option ContextError * World :=
  let wake := clock w + Z.max 0 interval in
  match cancelAt w with
  | Some c =>
      if c <? wake then (Some Canceled, withClock w (Z.max (clock w) c))
      else (None, withClock w wake)
  | None => (None, withClock w wake)
  end.

#[global] Instance client : ResourceClient World := {
  client_Get := get;
  client_UpdateState := updateState;
  client_Delete := delete;
  client_CreateRelease := createRelease
}.

#[global] Instance runtime : Runtime World := {
  time_Now := fun w => (clock w, w);
  ctx_wait := wait
}.

(** A record named [name], desired state Stopped, observed phase Pending,
    reachable over the given network. *)
Definition record (name user : string) (net : v1alpha2.NetworkStatus)
    : v1alpha2.Devbox :=
  v1alpha2.mkDevbox name "uid-1" 0
    (v1alpha2.mkDevboxSpec v1alpha2.DevboxStateStopped "ubuntu:22.04" ∅
       (v1alpha2.mkConfig "/home/devbox" user [] []))
    (v1alpha2.mkDevboxStatus "Pending" net "node-1").

Definition gateNet : v1alpha2.NetworkStatus :=
  v1alpha2.mkNetworkStatus v1alpha2.NetworkTypeSSHGate 0 "u1".

Definition nodePortNet (port : Z) : v1alpha2.NetworkStatus :=
  v1alpha2.mkNetworkStatus v1alpha2.NetworkTypeNodePort port EmptyString.

Definition box : v1alpha2.Devbox := record "abc" "devbox" gateNet.

(** A world holding [box] remotely, at time 0, that reports it ready from
    [ready] on, with 1ms of latency per call. *)
Definition worldOf (ready : Time) (cancel : option Time) (isDown : bool)
    : World :=
  mkWorld 0 {[ "abc" := box ]} ready cancel Millisecond isDown.

(** A handle on [box] with an empty trace and the given cache. *)
Definition sysOf (w : World) (c : gmap string v1alpha2.Devbox) : Sys World :=
  mkSys w c (mkHandle box) [].

End Sim.

(** ** Reading traces *)

(** The calls made between state [s] and a later state [s']. *)
Definition since {World : Type} (s s' : Sys World) : list Event :=
  drop (length (trace s)) (trace s').

(** The intervals of the waits in a trace, in order. *)
Fixpoint waits (evs : list Event) : list Duration :=
  match evs with
  | [] => []
  | EvWait interval _ :: evs' => interval :: waits evs'
  | _ :: evs' => waits evs'
  end.

(** An event that is not a poll, or is a poll that succeeded and showed a
    phase other than the ready one. *)
Definition pollNotReady (ev : Event) : Prop :=
  match ev with
  | EvGet _ (inl _) => False
  | EvGet _ (inr c) => isReady (mkHandle c) = false
  | _ => True
  end.

(** The runs of the [for] loop of [WaitForReady], as the calls they make
    and the result they return, from a given current interval. *)
Inductive loopRun (timeout : Duration) (deadline : Time)
    (maxInterval : Duration) (backoffMultiplier : float)
    (useExponentialBackoff : bool)
    : Duration -> list Event -> option (option error) -> Prop :=
| run_out_of_fuel interval :
    loopRun timeout deadline maxInterval backoffMultiplier
      useExponentialBackoff interval [] None
| run_timeout interval t :
    t > deadline ->
    loopRun timeout deadline maxInterval backoffMultiplier
      useExponentialBackoff interval [EvNow t]
      (Some (Some (timeoutError timeout)))
| run_refresh_error interval t name err :
    t <= deadline ->
    loopRun timeout deadline maxInterval backoffMultiplier
      useExponentialBackoff interval [EvNow t; EvGet name (inl err)]
      (Some (Some (ErrClient err)))
| run_ready interval t name c :
    t <= deadline ->
    isReady (mkHandle c) = true ->
    loopRun timeout deadline maxInterval backoffMultiplier
      useExponentialBackoff interval [EvNow t; EvGet name (inr c)]
      (Some None)
| run_cancelled interval t name c e :
    t <= deadline ->
    isReady (mkHandle c) = false ->
    loopRun timeout deadline maxInterval backoffMultiplier
      useExponentialBackoff interval
      [EvNow t; EvGet name (inr c); EvWait interval (Some e)]
      (Some (Some (ErrContext e)))
| run_again interval t name c evs r :
    t <= deadline ->
    isReady (mkHandle c) = false ->
    loopRun timeout deadline maxInterval backoffMultiplier
      useExponentialBackoff
      (nextInterval useExponentialBackoff backoffMultiplier maxInterval
         interval) evs r ->
    loopRun timeout deadline maxInterval backoffMultiplier
      useExponentialBackoff interval
      (EvNow t :: EvGet name (inr c) :: EvWait interval None :: evs) r.

(** The inter-poll intervals of the default options, in nanoseconds:
    200ms, 300ms, 450ms, ... and 5s from the ninth wait on. *)
Definition defaultSchedule (n : nat) : Duration :=
  nth n [200000000; 300000000; 450000000; 675000000; 1012500000;
         1518750000; 2278125000; 3417187500] 5000000000.


(** What a handle shows through its read accessors. *)
Definition observe (d : Devbox) :=
  (Name d, UID d, Status d, State d, Image d, CreatedAt d,
   CPULimit d, MemoryLimit d, NetworkType d, NodePort d,
   NetworkUniqueID d, Node d, WorkingDir d, User d, Ports d, AppPorts d,
   CRD d, SSHConnectionString d).

(** * Properties *)

Local Close Scope string_scope.

(** ** Lists of events *)

Lemma since_app {World : Type} (s s' : Sys World) (evs : list Event) :
  trace s' = trace s ++ evs -> since s s' = evs.
Proof.
  intros E. unfold since. rewrite E. apply drop_app_length.
Qed.

(** ** Consequences of the shape of a run *)

Ltac peel E pre :=
  let ev := fresh "ev" in
  let Ehd := fresh "Ehd" in
  destruct pre as [|ev pre]; cbn [app] in E;
  [ try discriminate E | injection E as Ehd E; subst ev ].

Ltac no_more E pre :=
  destruct pre; discriminate E.

Section Runs.

Variables (timeout : Duration) (deadline : Time) (maxInterval : Duration)
  (mult : float) (useBackoff : bool).

Local Abbreviation run :=
  (loopRun timeout deadline maxInterval mult useBackoff).

(** Every poll comes right after a reading of the clock that is not past
    the deadline. *)
Lemma run_poll_guarded interval evs r :
  run interval evs r ->
  forall pre name g post,
    evs = pre ++ EvGet name g :: post ->
    exists pre' t, pre = pre' ++ [EvNow t] /\ t <= deadline.
Proof.
  induction 1 as [i | i t Ht | i t n err Ht | i t n c Ht Hr
                 | i t n c e Ht Hr | i t n c evs r Ht Hr Hrun IH];
    intros pre name g post E.
  - no_more E pre.
  - peel E pre. no_more E pre.
  - peel E pre. peel E pre.
    + exists [], t. now split.
    + no_more E pre.
  - peel E pre. peel E pre.
    + exists [], t. now split.
    + no_more E pre.
  - peel E pre. peel E pre.
    + exists [], t. now split.
    + peel E pre. no_more E pre.
  - peel E pre. peel E pre.
    + exists [], t. now split.
    + peel E pre.
      destruct (IH _ _ _ _ E) as (pre' & t' & -> & Ht').
      exists (EvNow t :: EvGet n (inr c) :: EvWait i None :: pre'), t'.
      now split.
Qed.

(** A reading of the clock past the deadline ends the run with the
    timeout error. *)
Lemma run_past_deadline interval evs r :
  run interval evs r ->
  forall pre t post,
    evs = pre ++ EvNow t :: post ->
    t > deadline ->
    post = [] /\ r = Some (Some (timeoutError timeout)).
Proof.
  induction 1 as [i | i t Ht | i t n err Ht | i t n c Ht Hr
                 | i t n c e Ht Hr | i t n c evs r Ht Hr Hrun IH];
    intros pre t' post E Hpast.
  - no_more E pre.
  - peel E pre.
    + injection E as <- <-. now split.
    + no_more E pre.
  - peel E pre.
    + injection E as <- _. lia.
    + peel E pre. no_more E pre.
  - peel E pre.
    + injection E as <- _. lia.
    + peel E pre. no_more E pre.
  - peel E pre.
    + injection E as <- _. lia.
    + peel E pre. peel E pre. no_more E pre.
  - peel E pre.
    + injection E as <- _. lia.
    + peel E pre. peel E pre. now apply (IH _ _ _ E).
Qed.

(** The timeout error carries the configured timeout, and it is returned
    on a reading of the clock past the deadline, every poll before it
    having succeeded and shown a phase other than the ready one. *)
Lemma run_timeout_only interval evs r :
  run interval evs r ->
  forall te,
    r = Some (Some (ErrTimeout te)) ->
    ErrTimeout te = timeoutError timeout /\
    exists pre t,
      evs = pre ++ [EvNow t] /\ t > deadline /\ Forall pollNotReady pre.
Proof.
  induction 1 as [i | i t Ht | i t n err Ht | i t n c Ht Hr
                 | i t n c e Ht Hr | i t n c evs r Ht Hr Hrun IH];
    intros te E; try discriminate E.
  - split; [now injection E as <- |].
    exists [], t. repeat split; [exact Ht | constructor].
  - destruct (IH te E) as (Hte & pre & t' & -> & Ht' & Hpre).
    split; [exact Hte|].
    exists (EvNow t :: EvGet n (inr c) :: EvWait i None :: pre), t'.
    repeat split; [exact Ht' |].
    repeat (constructor; [cbn; auto|]). exact Hpre.
Qed.

(** The n-th wait of a run lasts the starting interval advanced n times. *)
Lemma run_waits interval evs r :
  run interval evs r ->
  forall (n : nat) w,
    waits evs !! n = Some w ->
    w = Nat.iter n (nextInterval useBackoff mult maxInterval) interval.
Proof.
  induction 1 as [i | i t Ht | i t n err Ht | i t n c Ht Hr
                 | i t n c e Ht Hr | i t n c evs r Ht Hr Hrun IH];
    intros k w E; cbn [waits] in E; try discriminate E.
  - destruct k as [|k]; [now injection E as <- | discriminate E].
  - destruct k as [|k]; [now injection E as <- |].
    cbn in E. rewrite Nat.iter_succ_r. now apply IH.
Qed.

(** A wait that the context wins is the last call of the run, and the
    run returns the context's error. *)
Lemma run_cancel interval evs r :
  run interval evs r ->
  forall j e,
    In (EvWait j (Some e)) evs ->
    r = Some (Some (ErrContext e)) /\
    exists pre, evs = pre ++ [EvWait j (Some e)].
Proof.
  induction 1 as [i | i t Ht | i t n err Ht | i t n c Ht Hr
                 | i t n c e Ht Hr | i t n c evs r Ht Hr Hrun IH];
    intros j e' Hin; cbn [In] in Hin;
    repeat (destruct Hin as [Hin|Hin]; try discriminate Hin);
    try contradiction.
  - injection Hin as <- <-. split; [reflexivity|].
    now exists [EvNow t; EvGet n (inr c)].
  - destruct (IH _ _ Hin) as (-> & pre & ->). split; [reflexivity|].
    now exists (EvNow t :: EvGet n (inr c) :: EvWait i None :: pre).
Qed.

(** A poll that fails is the last call of the run, and the run returns
    the client's error. *)
Lemma run_poll_error interval evs r :
  run interval evs r ->
  forall name err,
    In (EvGet name (inl err)) evs ->
    r = Some (Some (ErrClient err)) /\
    exists pre, evs = pre ++ [EvGet name (inl err)].
Proof.
  induction 1 as [i | i t Ht | i t n err Ht | i t n c Ht Hr
                 | i t n c e Ht Hr | i t n c evs r Ht Hr Hrun IH];
    intros name err' Hin; cbn [In] in Hin;
    repeat (destruct Hin as [Hin|Hin]; try discriminate Hin);
    try contradiction.
  - injection Hin as <- <-. split; [reflexivity|]. now exists [EvNow t].
  - destruct (IH _ _ Hin) as (-> & pre & ->). split; [reflexivity|].
    now exists (EvNow t :: EvGet n (inr c) :: EvWait i None :: pre).
Qed.

End Runs.

Section Facts.

Context {World : Type} `{ResourceClient World} `{Runtime World}.

(** ** One step of each method *)

Lemma call_run {A : Type} (op : World -> A * World) (ev : A -> Event)
    (s : Sys World) :
  call op ev s =
  (fst (op (world s)),
   mkSys (snd (op (world s))) (cache s) (self s)
         (trace s ++ [ev (fst (op (world s)))])).
Proof.
  unfold call. destruct (op (world s)) as [a w]. reflexivity.
Qed.

Lemma RefreshInfo_run (s : Sys World) :
  let name := v1alpha2.Name (crd (self s)) in
  RefreshInfo s =
  match fst (client_Get name (world s)) with
  | inl err =>
      (Some (ErrClient err),
       mkSys (snd (client_Get name (world s))) (cache s) (self s)
             (trace s ++ [EvGet name (inl err)]))
  | inr devbox =>
      (None,
       mkSys (snd (client_Get name (world s)))
             (cache_Set (v1alpha2.Name devbox) devbox (cache s))
             (mkHandle devbox)
             (trace s ++ [EvGet name (inr devbox)]))
  end.
Proof.
  cbv zeta. unfold RefreshInfo, bind, getSelf, clientGet.
  rewrite call_run.
  destruct (fst (client_Get _ (world s))); reflexivity.
Qed.

Lemma clientUpdateState_run (name : string) (st : v1alpha2.DevboxState)
    (s : Sys World) :
  clientUpdateState name st s =
  (option_map ErrClient (fst (client_UpdateState name st (world s))),
   mkSys (snd (client_UpdateState name st (world s))) (cache s) (self s)
         (trace s ++
          [EvUpdateState name st (fst (client_UpdateState name st (world s)))])).
Proof.
  unfold clientUpdateState, bind. rewrite call_run. reflexivity.
Qed.

Lemma Delete_run (s : Sys World) :
  let name := v1alpha2.Name (crd (self s)) in
  Delete s =
  match fst (client_Delete name (world s)) with
  | Some err =>
      (Some (ErrClient err),
       mkSys (snd (client_Delete name (world s))) (cache s) (self s)
             (trace s ++ [EvDelete name (Some err)]))
  | None =>
      (None,
       mkSys (snd (client_Delete name (world s)))
             (cache_Delete name (cache s)) (self s)
             (trace s ++ [EvDelete name None]))
  end.
Proof.
  cbv zeta. unfold Delete, bind, getSelf, clientDelete.
  rewrite call_run.
  destruct (fst (client_Delete _ (world s))); reflexivity.
Qed.

(** ** The loop makes exactly the runs of [loopRun] *)

Lemma waitLoop_run (timeout : Duration) (deadline : Time)
    (maxInterval : Duration) (mult : float) (useBackoff : bool)
    (fuel : nat) :
  forall (interval : Duration) (s : Sys World) r s',
    waitLoop fuel timeout deadline maxInterval mult useBackoff interval s
    = (r, s') ->
    exists evs,
      trace s' = trace s ++ evs /\
      loopRun timeout deadline maxInterval mult useBackoff interval evs r.
Proof.
  induction fuel as [|fuel IH]; intros interval s r s' E.
  - inversion E; subst. exists []. rewrite app_nil_r.
    split; [reflexivity | apply run_out_of_fuel].
  - cbn [waitLoop] in E. unfold bind, now, getSelf, sleepOrDone in E.
    rewrite call_run in E.
    set (t := fst (time_Now (world s))) in *.
    destruct (Z.gtb_spec t deadline) as [Hgt|Hle].
    { inversion E; subst. exists [EvNow t].
      split; [reflexivity | apply run_timeout; lia]. }
    rewrite RefreshInfo_run in E. cbv zeta in E. cbn [world self] in E.
    set (name := v1alpha2.Name (crd (self s))) in *.
    set (g := client_Get name (snd (time_Now (world s)))) in *.
    destruct (fst g) as [err|devbox] eqn:Eget.
    { inversion E; subst. exists [EvNow t; EvGet name (inl err)].
      cbn [trace]. rewrite <- app_assoc.
      split; [reflexivity | now apply run_refresh_error]. }
    cbn [self] in E.
    destruct (isReady (mkHandle devbox)) eqn:Eready.
    { inversion E; subst. exists [EvNow t; EvGet name (inr devbox)].
      cbn [trace]. rewrite <- app_assoc.
      split; [reflexivity | now apply run_ready]. }
    rewrite call_run in E. cbn [world cache self trace] in E.
    destruct (fst (ctx_wait interval (snd g))) as [e|] eqn:Ewait.
    { inversion E; subst.
      exists [EvNow t; EvGet name (inr devbox); EvWait interval (Some e)].
      cbn [trace]. rewrite <- !app_assoc.
      split; [reflexivity | now apply run_cancelled]. }
    apply IH in E. destruct E as (evs & Etr & Hrun).
    exists (EvNow t :: EvGet name (inr devbox)
              :: EvWait interval None :: evs).
    split; [| now apply run_again].
    rewrite Etr. cbn [trace]. now rewrite <- !app_assoc.
Qed.

Lemma WaitForReady_run (fuel : nat) (opts : types.WaitForReadyOptions)
    (s : Sys World) :
  exists t0 evs,
    since s (snd (WaitForReady fuel opts s)) = EvNow t0 :: evs /\
    loopRun (timeoutOf opts) (t0 + timeoutOf opts) (maxIntervalOf opts)
      (backoffMultiplierOf opts) (useExponentialBackoffOf opts)
      (firstIntervalOf opts) evs (fst (WaitForReady fuel opts s)).
Proof.
  destruct (WaitForReady fuel opts s) as [r s'] eqn:E.
  unfold WaitForReady in E. cbv zeta in E. unfold bind, now in E.
  rewrite call_run in E.
  apply waitLoop_run in E. destruct E as (evs & Etr & Hrun).
  exists (fst (time_Now (world s))), evs. cbn [fst snd].
  split; [|exact Hrun].
  apply since_app. rewrite Etr. cbn [trace]. now rewrite <- app_assoc.
Qed.

(** ** The default backoff schedule *)

Lemma default_next_fixpoint :
  nextInterval true 1.5%float (5 * Second) (5 * Second) = 5 * Second.
Proof. vm_compute. reflexivity. Qed.

Lemma defaultSchedule_iter (n : nat) :
  Nat.iter n (nextInterval true 1.5%float (5 * Second)) (200 * Millisecond)
  = defaultSchedule n.
Proof.
  assert (Htail : forall k,
    Nat.iter (8 + k) (nextInterval true 1.5%float (5 * Second))
      (200 * Millisecond) = 5 * Second).
  { induction k as [|k IHk].
    - vm_compute. reflexivity.
    - replace (8 + S k)%nat with (S (8 + k)) by lia.
      rewrite Nat.iter_succ, IHk. apply default_next_fixpoint. }
  do 8 (destruct n as [|n]; [vm_compute; reflexivity|]).
  transitivity (5 * Second); [exact (Htail n)|].
  unfold defaultSchedule. symmetry. apply nth_overflow. cbn. lia.
Qed.

Lemma defaultSchedule_step (n : nat) :
  defaultSchedule (S n) = Z.min (defaultSchedule n * 3 / 2) (5 * Second) /\
  defaultSchedule n <= defaultSchedule (S n) /\
  200 * Millisecond <= defaultSchedule n <= 5 * Second.
Proof.
  do 9 (destruct n as [|n]; [vm_compute; repeat split; congruence|]).
  vm_compute; repeat split; congruence.
Qed.

Lemma defaultSchedule_mono (n m : nat) :
  (n <= m)%nat -> defaultSchedule n <= defaultSchedule m.
Proof.
  induction 1 as [|m Hle IH]; [lia|].
  pose proof (defaultSchedule_step m) as (_ & Hstep & _). lia.
Qed.

(** ** Mutations, the cache and the held snapshot *)

(** C1 (as amended): [Start], [Pause], [Stop] and [Shutdown] make one
    desired-state update call and return its result without writing the
    Local Cache, which is the same after the call as before it, on
    success and on failure alike.  A successful [Delete] removes the cache
    entry of the handle's name, and the cache is populated by a
    successful [RefreshInfo]. *)
Theorem mutations_and_the_cache (s : Sys World) :
  let name := v1alpha2.Name (crd (self s)) in
  let update state := fst (client_UpdateState name state (world s)) in
  (cache (snd (Start s)) = cache s /\
   cache (snd (Pause s)) = cache s /\
   cache (snd (Stop s)) = cache s /\
   cache (snd (Shutdown s)) = cache s) /\
  (since s (snd (Start s))
   = [EvUpdateState name v1alpha2.DevboxStateRunning
        (update v1alpha2.DevboxStateRunning)] /\
   since s (snd (Pause s))
   = [EvUpdateState name v1alpha2.DevboxStatePaused
        (update v1alpha2.DevboxStatePaused)] /\
   since s (snd (Stop s))
   = [EvUpdateState name v1alpha2.DevboxStateStopped
        (update v1alpha2.DevboxStateStopped)] /\
   since s (snd (Shutdown s))
   = [EvUpdateState name v1alpha2.DevboxStateShutdown
        (update v1alpha2.DevboxStateShutdown)]) /\
  (fst (Start s) = option_map ErrClient (update v1alpha2.DevboxStateRunning)
   /\
   fst (Pause s) = option_map ErrClient (update v1alpha2.DevboxStatePaused)
   /\
   fst (Stop s) = option_map ErrClient (update v1alpha2.DevboxStateStopped)
   /\
   fst (Shutdown s)
   = option_map ErrClient (update v1alpha2.DevboxStateShutdown)) /\
  match fst (client_Delete name (world s)) with
  | None =>
      fst (Delete s) = None /\
      cache (snd (Delete s)) = delete name (cache s)
  | Some err => fst (Delete s) = Some (ErrClient err)
  end /\
  match fst (client_Get name (world s)) with
  | inr devbox =>
      fst (RefreshInfo s) = None /\
      cache (snd (RefreshInfo s))
      = <[v1alpha2.Name devbox := devbox]> (cache s)
  | inl err => fst (RefreshInfo s) = Some (ErrClient err)
  end.
Proof.
  cbv zeta. unfold Start, Pause, Stop, Shutdown, bind, getSelf.
  rewrite !clientUpdateState_run. cbn [fst snd cache].
  split; [auto|].
  split; [repeat split; now apply since_app|].
  split; [auto|].
  pose proof (Delete_run s) as HD. cbv zeta in HD.
  pose proof (RefreshInfo_run s) as HR. cbv zeta in HR.
  split.
  - destruct (fst (client_Delete _ (world s))); rewrite HD; now cbn.
  - destruct (fst (client_Get _ (world s))); rewrite HR; now cbn.
Qed.

(** C8: [Delete] removes the cache entry of the handle's name only when
    the client's delete succeeds.  When the client's delete fails, the
    error is returned and the whole cache, the entry of that name
    included, is as it was before the call. *)
Theorem Delete_cache_only_on_success (s : Sys World) :
  let name := v1alpha2.Name (crd (self s)) in
  (forall err,
     fst (client_Delete name (world s)) = Some err ->
     fst (Delete s) = Some (ErrClient err) /\
     cache (snd (Delete s)) = cache s /\
     cache (snd (Delete s)) !! name = cache s !! name) /\
  (fst (client_Delete name (world s)) = None ->
     fst (Delete s) = None /\
     cache (snd (Delete s)) = cache_Delete name (cache s) /\
     cache (snd (Delete s)) !! name = None).
Proof.
  cbv zeta. pose proof (Delete_run s) as HD. cbv zeta in HD.
  split.
  - intros err E. rewrite E in HD. rewrite HD. now cbn.
  - intros E. rewrite E in HD. rewrite HD. cbn [fst snd cache].
    repeat split. unfold cache_Delete. apply lookup_delete_eq.
Qed.

(** C10: [Start], [Pause], [Stop] and [Shutdown] never change the
    snapshot the handle holds, whether the call succeeds or fails: every
    read accessor returns after the call what it returned before it.  The
    snapshot changes when a successful [RefreshInfo] replaces it with the
    record the client returned. *)
Theorem mutations_keep_snapshot (s : Sys World) :
  (self (snd (Start s)) = self s /\
   self (snd (Pause s)) = self s /\
   self (snd (Stop s)) = self s /\
   self (snd (Shutdown s)) = self s) /\
  (observe (self (snd (Start s))) = observe (self s) /\
   observe (self (snd (Pause s))) = observe (self s) /\
   observe (self (snd (Stop s))) = observe (self s) /\
   observe (self (snd (Shutdown s))) = observe (self s)) /\
  match fst (client_Get (v1alpha2.Name (crd (self s))) (world s)) with
  | inr devbox => self (snd (RefreshInfo s)) = mkHandle devbox
  | inl _ => self (snd (RefreshInfo s)) = self s
  end.
Proof.
  unfold Start, Pause, Stop, Shutdown, bind, getSelf.
  rewrite !clientUpdateState_run. cbn [fst snd self].
  repeat split.
  pose proof (RefreshInfo_run s) as HR. cbv zeta in HR.
  destruct (fst (client_Get _ (world s))); rewrite HR; reflexivity.
Qed.

(** ** CreateRelease *)

(** C9: [CreateRelease] submits to the client one request whose name is
    the parent's name, the separator "-" and the supplied version, for
    every handle and every release configuration; parent "abc" with
    version "1.0" gives the request name "abc-1.0". *)
Theorem CreateRelease_request_name (s : Sys World) (cfg : ReleaseConfig) :
  (exists req r,
     since s (snd (CreateRelease cfg s)) = [EvCreateRelease req r] /\
     v1alpha2.ReleaseName req
     = (v1alpha2.Name (crd (self s)) +:+ "-" +:+ cfgVersion cfg) /\
     v1alpha2.DevboxName (v1alpha2.ReleaseSpec req)
     = v1alpha2.Name (crd (self s)) /\
     v1alpha2.Version (v1alpha2.ReleaseSpec req) = cfgVersion cfg) /\
  (forall (d : Devbox) (notes : string) (start : bool),
     Name d = "abc"%string ->
     v1alpha2.ReleaseName
       (releaseRequest d (mkReleaseConfig "1.0" notes start))
     = "abc-1.0"%string).
Proof.
  split.
  - unfold CreateRelease, bind, getSelf, clientCreateRelease.
    rewrite call_run.
    set (req := releaseRequest (self s) cfg).
    exists req, (fst (client_CreateRelease req (world s))).
    split; [|now cbn].
    apply since_app.
    destruct (fst (client_CreateRelease req (world s))); reflexivity.
  - intros d notes start Hname. unfold Name in Hname.
    unfold releaseRequest. cbn. now rewrite Hname.
Qed.

(** ** The readiness loop *)

(** C3: in every iteration the deadline, the start time plus the
    configured timeout (300s when unset), is checked before the poll.
    Every refresh comes right after a reading of the clock that is not
    past the deadline; a reading past the deadline ends the wait at once
    with the timeout error, which carries the configured timeout; and the
    timeout error is returned only on such a reading, every poll before
    it having shown a phase other than the ready one. *)
Theorem WaitForReady_deadline_before_poll (fuel : nat)
    (opts : types.WaitForReadyOptions) (s : Sys World) :
  exists t0 evs,
    since s (snd (WaitForReady fuel opts s)) = EvNow t0 :: evs /\
    (forall pre name g post,
       evs = pre ++ EvGet name g :: post ->
       exists pre' t, pre = pre' ++ [EvNow t] /\ t <= t0 + timeoutOf opts) /\
    (forall pre t post,
       evs = pre ++ EvNow t :: post ->
       t > t0 + timeoutOf opts ->
       post = [] /\
       fst (WaitForReady fuel opts s)
       = Some (Some (ErrTimeout
                       (mkTimeoutError "waiting for devbox to be ready"
                                       (timeoutOf opts))))) /\
    (forall te,
       fst (WaitForReady fuel opts s) = Some (Some (ErrTimeout te)) ->
       timeout te = timeoutOf opts /\
       exists pre t,
         evs = pre ++ [EvNow t] /\ t > t0 + timeoutOf opts /\
         Forall pollNotReady pre) /\
    (types.Timeout opts = 0 -> timeoutOf opts = 300 * Second) /\
    (types.Timeout opts <> 0 -> timeoutOf opts = types.Timeout opts).
Proof.
  destruct (WaitForReady_run fuel opts s) as (t0 & evs & Hsince & Hrun).
  exists t0, evs. split; [exact Hsince|].
  split; [exact (run_poll_guarded _ _ _ _ _ _ _ _ Hrun)|].
  split; [exact (run_past_deadline _ _ _ _ _ _ _ _ Hrun)|].
  split.
  - intros te E.
    destruct (run_timeout_only _ _ _ _ _ _ _ _ Hrun te E) as (Hte & Hpre).
    split; [|exact Hpre]. now injection Hte as ->.
  - unfold timeoutOf. split; intros E.
    + now rewrite E.
    + destruct (Z.eqb_spec (types.Timeout opts) 0); [contradiction|reflexivity].
Qed.

(** C4: with exponential backoff enabled and the default options
    (initial interval 200ms, ceiling 5s, multiplier 1.5) the inter-poll
    intervals are 200ms, 300ms, 450ms, ...: the first is 200ms, each
    next one is the previous one times 1.5 cut at 5s, the sequence never
    decreases, and no interval exceeds 5s. *)
Theorem WaitForReady_default_backoff (fuel : nat)
    (opts : types.WaitForReadyOptions) (s : Sys World) :
  initialIntervalOf opts = 200 * Millisecond ->
  maxIntervalOf opts = 5 * Second ->
  backoffMultiplierOf opts = 1.5%float ->
  useExponentialBackoffOf opts = true ->
  let ws := waits (since s (snd (WaitForReady fuel opts s))) in
  (forall (n : nat) w, ws !! n = Some w -> w = defaultSchedule n) /\
  (forall w, ws !! 0%nat = Some w -> w = 200 * Millisecond) /\
  (forall (n : nat) w w',
     ws !! n = Some w -> ws !! S n = Some w' ->
     w' = Z.min (w * 3 / 2) (5 * Second)) /\
  (forall (n m : nat) w w',
     (n <= m)%nat -> ws !! n = Some w -> ws !! m = Some w' -> w <= w') /\
  (forall (n : nat) w, ws !! n = Some w -> w <= 5 * Second).
Proof.
  intros Hinit Hmax Hmult Huse ws.
  destruct (WaitForReady_run fuel opts s) as (t0 & evs & Hsince & Hrun).
  assert (Hws : forall (n : nat) w, ws !! n = Some w -> w = defaultSchedule n).
  { intros n w E. subst ws. rewrite Hsince in E. cbn [waits] in E.
    rewrite (run_waits _ _ _ _ _ _ _ _ Hrun n w E).
    unfold firstIntervalOf. rewrite Huse, Hmult, Hmax, Hinit. cbn [negb andb].
    apply defaultSchedule_iter. }
  split; [exact Hws|]. split; [|split; [|split]].
  - intros w E. now rewrite (Hws _ _ E).
  - intros n w w' E E'. rewrite (Hws _ _ E), (Hws _ _ E').
    apply defaultSchedule_step.
  - intros n m w w' Hle E E'. rewrite (Hws _ _ E), (Hws _ _ E').
    now apply defaultSchedule_mono.
  - intros n w E. rewrite (Hws _ _ E). apply defaultSchedule_step.
Qed.

(** C5: when [checkInterval] is positive, exponential backoff is off
    whatever the [useExponentialBackoff] flag says, and every inter-poll
    interval of the wait equals [checkInterval]. *)
Theorem WaitForReady_fixed_interval (fuel : nat)
    (opts : types.WaitForReadyOptions) (s : Sys World) :
  types.CheckInterval opts > 0 ->
  useExponentialBackoffOf opts = false /\
  Forall (fun w => w = types.CheckInterval opts)
         (waits (since s (snd (WaitForReady fuel opts s)))).
Proof.
  intros Hpos.
  assert (Huse : useExponentialBackoffOf opts = false).
  { unfold useExponentialBackoffOf.
    destruct (Z.gtb_spec (types.CheckInterval opts) 0); [reflexivity | lia]. }
  split; [exact Huse|].
  destruct (WaitForReady_run fuel opts s) as (t0 & evs & Hsince & Hrun).
  rewrite Hsince. cbn [waits]. apply Forall_lookup. intros n w E.
  rewrite (run_waits _ _ _ _ _ _ _ _ Hrun n w E).
  rewrite Huse. unfold firstIntervalOf. rewrite Huse. cbn [negb andb].
  destruct (Z.gtb_spec (types.CheckInterval opts) 0); [|lia].
  clear. induction n as [|n IH]; [reflexivity|].
  rewrite Nat.iter_succ. unfold nextInterval at 1. exact IH.
Qed.

(** C6: if the context is cancelled while [WaitForReady] is waiting
    between two polls, [WaitForReady] returns the context's error, which
    is no timeout error, and makes no further call: the clock is not read
    again, so it does not matter whether the deadline has passed. *)
Theorem WaitForReady_cancelled_while_waiting (fuel : nat)
    (opts : types.WaitForReadyOptions) (s : Sys World)
    (interval : Duration) (e : ContextError) :
  In (EvWait interval (Some e)) (since s (snd (WaitForReady fuel opts s))) ->
  fst (WaitForReady fuel opts s) = Some (Some (ErrContext e)) /\
  exists pre,
    since s (snd (WaitForReady fuel opts s))
    = pre ++ [EvWait interval (Some e)].
Proof.
  intros Hin.
  destruct (WaitForReady_run fuel opts s) as (t0 & evs & Hsince & Hrun).
  rewrite Hsince in Hin |- *. destruct Hin as [Hin|Hin]; [discriminate Hin|].
  destruct (run_cancel _ _ _ _ _ _ _ _ Hrun _ _ Hin) as (Hr & pre & ->).
  split; [exact Hr|]. now exists (EvNow t0 :: pre).
Qed.

(** C7: if a refresh made by [WaitForReady] fails, the wait ends there:
    [WaitForReady] returns the error of that refresh as it is, and the
    failed call is the last one it makes, so nothing is retried and the
    failure is not taken for "not yet ready".  The error of a failed
    [RefreshInfo] is the client's own. *)
Theorem WaitForReady_refresh_error (fuel : nat)
    (opts : types.WaitForReadyOptions) (s : Sys World) :
  (forall name err,
     In (EvGet name (inl err)) (since s (snd (WaitForReady fuel opts s))) ->
     fst (WaitForReady fuel opts s) = Some (Some (ErrClient err)) /\
     exists pre,
       since s (snd (WaitForReady fuel opts s))
       = pre ++ [EvGet name (inl err)]) /\
  (forall err,
     fst (RefreshInfo s) = Some err ->
     exists e,
       err = ErrClient e /\
       fst (client_Get (v1alpha2.Name (crd (self s))) (world s)) = inl e /\
       since s (snd (RefreshInfo s))
       = [EvGet (v1alpha2.Name (crd (self s))) (inl e)] /\
       self (snd (RefreshInfo s)) = self s /\
       cache (snd (RefreshInfo s)) = cache s).
Proof.
  split.
  - intros name err Hin.
    destruct (WaitForReady_run fuel opts s) as (t0 & evs & Hsince & Hrun).
    rewrite Hsince in Hin |- *.
    destruct Hin as [Hin|Hin]; [discriminate Hin|].
    destruct (run_poll_error _ _ _ _ _ _ _ _ Hrun _ _ Hin) as (Hr & pre & ->).
    split; [exact Hr|]. now exists (EvNow t0 :: pre).
  - intros err E.
    pose proof (RefreshInfo_run s) as HR. cbv zeta in HR.
    destruct (fst (client_Get _ (world s))) as [e|devbox] eqn:Eget;
      rewrite HR in E |- *; cbn [fst snd self cache] in *; [|discriminate E].
    injection E as <-. exists e. repeat split. now apply since_app.
Qed.

End Facts.

(** ** The connection string *)


(** For a gateway-routed network the connection string is the network
    unique identifier followed by "@bja.sealos.run". *)
Lemma SSHConnectionString_gate (d : Devbox) :
  NetworkType d = v1alpha2.NetworkTypeSSHGate ->
  SSHConnectionString d = NetworkUniqueID d +:+ "@bja.sealos.run".
Proof.
  unfold NetworkType, NetworkUniqueID, SSHConnectionString. intros ->.
  reflexivity.
Qed.

(** For a network that is neither gateway-routed nor directly exposed
    the connection string is empty. *)
Lemma SSHConnectionString_other (d : Devbox) :
  NetworkType d <> v1alpha2.NetworkTypeSSHGate ->
  NetworkType d <> v1alpha2.NetworkTypeNodePort ->
  SSHConnectionString d = EmptyString.
Proof.
  unfold NetworkType, SSHConnectionString. intros Hg Hn. cbv zeta.
  destruct (String.eqb_spec
              (v1alpha2.Type_ (v1alpha2.Network (v1alpha2.Status (crd d))))
              v1alpha2.NetworkTypeSSHGate); [contradiction|].
  destruct (String.eqb_spec
              (v1alpha2.Type_ (v1alpha2.Network (v1alpha2.Status (crd d))))
              v1alpha2.NetworkTypeNodePort); [contradiction|].
  reflexivity.
Qed.

(** For a directly exposed network the connection string ends in the
    UTF-8 encoding of the code point whose number is the port. *)
Lemma SSHConnectionString_nodeport (d : Devbox) :
  NetworkType d = v1alpha2.NetworkTypeNodePort ->
  SSHConnectionString d
  = User d +:+ "@<node-ip>:" +:+ string_of_rune (NodePort d).
Proof.
  unfold NetworkType, NodePort, User, SSHConnectionString. intros ->.
  reflexivity.
Qed.




(** C2 (evaluated on a failing input): for the directly exposed network
    with user "devbox" and port 30022 the code returns
    "devbox@<node-ip>:" followed by the three bytes E7 95 86, the UTF-8
    encoding of U+7546, where the decimal representation asked for is
    "devbox@<node-ip>:30022". *)
Theorem SSHConnectionString_nodeport_30022 :
  let d := mkHandle (Sim.record "abc" "devbox" (Sim.nodePortNet 30022)) in
  SSHConnectionString d
  = ("devbox@<node-ip>:" +:+
     String (byte 231) (String (byte 149) (String (byte 134) EmptyString)))
  /\ SSHConnectionString_spec d = "devbox@<node-ip>:30022"%string
  /\ String.eqb (SSHConnectionString d) (SSHConnectionString_spec d) = false.
Proof. vm_compute. repeat split. Qed.

(** ** Runs on the simulated control plane *)

(** C1 (counterexample): on a handle of the record "abc" with an empty
    cache, [Start], [Pause], [Stop] and [Shutdown] all succeed and the
    cache still has no entry for "abc". *)
Lemma Start_success_cache_not_populated :
  let s := Sim.sysOf (Sim.worldOf 0 None false) ∅ in
  (fst (Start s) = None /\ cache (snd (Start s)) !! Name (self s) = None) /\
  (fst (Pause s) = None /\ cache (snd (Pause s)) !! Name (self s) = None) /\
  (fst (Stop s) = None /\ cache (snd (Stop s)) !! Name (self s) = None) /\
  (fst (Shutdown s) = None /\
   cache (snd (Shutdown s)) !! Name (self s) = None).
Proof. vm_compute. repeat split. Qed.

(** C3 (a run): with a timeout of 1s on a record that becomes ready only
    after 60s, the wait polls four times, reads the clock past the
    deadline and returns the timeout error carrying 1s. *)
Lemma WaitForReady_deadline_witness :
  let opts := types.mkWaitForReadyOptions Second 0 0 0%float None 0 in
  let s := Sim.sysOf (Sim.worldOf (60 * Second) None false) ∅ in
  fst (WaitForReady 20 opts s)
  = Some (Some (ErrTimeout
                  (mkTimeoutError "waiting for devbox to be ready" Second)))
  /\ length (waits (since s (snd (WaitForReady 20 opts s)))) = 4%nat
  /\ exists t0 evs,
       since s (snd (WaitForReady 20 opts s)) = EvNow t0 :: evs /\
       forall pre name g post,
         evs = pre ++ EvGet name g :: post ->
         exists pre' t, pre = pre' ++ [EvNow t] /\ t <= t0 + timeoutOf opts.
Proof.
  cbv zeta. split; [vm_compute; reflexivity|].
  split; [vm_compute; reflexivity|].
  destruct (WaitForReady_deadline_before_poll 20
              (types.mkWaitForReadyOptions Second 0 0 0%float None 0)
              (Sim.sysOf (Sim.worldOf (60 * Second) None false) ∅))
    as (t0 & evs & Hsince & Hguard & _).
  exists t0, evs. split; [exact Hsince | exact Hguard].
Defined.

(** C4 (a run): with every option unset, twelve unsuccessful polls wait
    200ms, 300ms, 450ms, 675ms, 1012.5ms, 1518.75ms, 2278.125ms,
    3417.1875ms and then 5s each time. *)
Lemma WaitForReady_default_backoff_witness :
  initialIntervalOf types.zeroOptions = 200 * Millisecond /\
  maxIntervalOf types.zeroOptions = 5 * Second /\
  backoffMultiplierOf types.zeroOptions = 1.5%float /\
  useExponentialBackoffOf types.zeroOptions = true /\
  waits (since (Sim.sysOf (Sim.worldOf (60 * Second) None false) ∅)
           (snd (WaitForReady 12 types.zeroOptions
                   (Sim.sysOf (Sim.worldOf (60 * Second) None false) ∅))))
  = [200000000; 300000000; 450000000; 675000000; 1012500000; 1518750000;
     2278125000; 3417187500; 5000000000; 5000000000; 5000000000;
     5000000000] /\
  forall (n : nat) w,
    waits (since (Sim.sysOf (Sim.worldOf (60 * Second) None false) ∅)
             (snd (WaitForReady 12 types.zeroOptions
                     (Sim.sysOf (Sim.worldOf (60 * Second) None false) ∅))))
    !! n = Some w ->
    w = defaultSchedule n.
Proof.
  do 5 (split; [vm_compute; reflexivity|]).
  apply (WaitForReady_default_backoff 12 types.zeroOptions
           (Sim.sysOf (Sim.worldOf (60 * Second) None false) ∅)
           eq_refl eq_refl eq_refl eq_refl).
Defined.

(** C5 (a run): with [checkInterval] 1s and the backoff flag set to
    true, five unsuccessful polls wait 1s each time. *)
Lemma WaitForReady_fixed_interval_witness :
  types.CheckInterval
    (types.mkWaitForReadyOptions 0 0 0 0%float (Some true) Second) > 0 /\
  waits (since (Sim.sysOf (Sim.worldOf (60 * Second) None false) ∅)
           (snd (WaitForReady 5
                   (types.mkWaitForReadyOptions 0 0 0 0%float (Some true)
                      Second)
                   (Sim.sysOf (Sim.worldOf (60 * Second) None false) ∅))))
  = [Second; Second; Second; Second; Second] /\
  useExponentialBackoffOf
    (types.mkWaitForReadyOptions 0 0 0 0%float (Some true) Second) = false /\
  Forall (fun w => w = Second)
    (waits (since (Sim.sysOf (Sim.worldOf (60 * Second) None false) ∅)
              (snd (WaitForReady 5
                      (types.mkWaitForReadyOptions 0 0 0 0%float (Some true)
                         Second)
                      (Sim.sysOf (Sim.worldOf (60 * Second) None false) ∅))))).
Proof.
  split; [reflexivity|]. split; [vm_compute; reflexivity|].
  apply (WaitForReady_fixed_interval 5
           (types.mkWaitForReadyOptions 0 0 0 0%float (Some true) Second)
           (Sim.sysOf (Sim.worldOf (60 * Second) None false) ∅)).
  reflexivity.
Defined.

(** C6 (a run): timeout 1s, fixed interval 10s, context cancelled at 5s.
    The first wait starts at 1ms and is cut short at 5s, four seconds
    past the deadline; the wait returns the context's error. *)
Lemma WaitForReady_cancelled_while_waiting_witness :
  let opts := types.mkWaitForReadyOptions Second 0 0 0%float None
                (10 * Second) in
  let s := Sim.sysOf (Sim.worldOf (60 * Second) (Some (5 * Second)) false) ∅ in
  In (EvWait (10 * Second) (Some Canceled))
     (since s (snd (WaitForReady 20 opts s))) /\
  Sim.clock (world (snd (WaitForReady 20 opts s))) = 5 * Second /\
  (0 + timeoutOf opts <? Sim.clock (world (snd (WaitForReady 20 opts s))))
  = true /\
  fst (WaitForReady 20 opts s) = Some (Some (ErrContext Canceled)) /\
  exists pre,
    since s (snd (WaitForReady 20 opts s))
    = pre ++ [EvWait (10 * Second) (Some Canceled)].
Proof.
  cbv zeta.
  assert (Hin : In (EvWait (10 * Second) (Some Canceled))
                  (since (Sim.sysOf (Sim.worldOf (60 * Second)
                                       (Some (5 * Second)) false) ∅)
                     (snd (WaitForReady 20
                             (types.mkWaitForReadyOptions Second 0 0 0%float
                                None (10 * Second))
                             (Sim.sysOf (Sim.worldOf (60 * Second)
                                           (Some (5 * Second)) false) ∅))))).
  { vm_compute. right. right. right. left. reflexivity. }
  split; [exact Hin|].
  split; [vm_compute; reflexivity|]. split; [vm_compute; reflexivity|].
  exact (WaitForReady_cancelled_while_waiting 20 _ _ _ _ Hin).
Defined.

(** C7 (a run): when the transport is down the first refresh fails, and
    the wait returns that error after a single call to the client. *)
Lemma WaitForReady_refresh_error_witness :
  let s := Sim.sysOf (Sim.worldOf 0 None true) ∅ in
  In (EvGet "abc" (inl "unavailable"%string))
     (since s (snd (WaitForReady 20 types.zeroOptions s))) /\
  fst (WaitForReady 20 types.zeroOptions s)
  = Some (Some (ErrClient "unavailable")) /\
  exists pre,
    since s (snd (WaitForReady 20 types.zeroOptions s))
    = pre ++ [EvGet "abc" (inl "unavailable"%string)].
Proof.
  cbv zeta.
  assert (Hin : In (EvGet "abc" (inl "unavailable"%string))
                  (since (Sim.sysOf (Sim.worldOf 0 None true) ∅)
                     (snd (WaitForReady 20 types.zeroOptions
                             (Sim.sysOf (Sim.worldOf 0 None true) ∅))))).
  { vm_compute. right. right. left. reflexivity. }
  split; [exact Hin|].
  exact (proj1 (WaitForReady_refresh_error 20 types.zeroOptions
                  (Sim.sysOf (Sim.worldOf 0 None true) ∅)) _ _ Hin).
Defined.

(** C8 (a run): with the cache holding the record "abc" and the
    transport down, [Delete] fails and the cache still holds that record. *)
Lemma Delete_failure_witness :
  let s := Sim.sysOf (Sim.worldOf 0 None true) {[ "abc"%string := Sim.box ]} in
  fst (client_Delete (v1alpha2.Name (crd (self s))) (world s))
  = Some "unavailable"%string /\
  fst (Delete s) = Some (ErrClient "unavailable") /\
  cache (snd (Delete s)) = cache s /\
  cache (snd (Delete s)) !! v1alpha2.Name (crd (self s)) = Some Sim.box.
Proof.
  cbv zeta.
  assert (Hfail :
    fst (client_Delete
           (v1alpha2.Name
              (crd (self (Sim.sysOf (Sim.worldOf 0 None true)
                            {[ "abc"%string := Sim.box ]}))))
           (world (Sim.sysOf (Sim.worldOf 0 None true)
                     {[ "abc"%string := Sim.box ]})))
    = Some "unavailable"%string) by reflexivity.
  split; [exact Hfail|].
  destruct (proj1 (Delete_cache_only_on_success
                     (Sim.sysOf (Sim.worldOf 0 None true)
                        {[ "abc"%string := Sim.box ]}))
              "unavailable"%string Hfail) as (Hr & Hc & Hl).
  split; [exact Hr|]. split; [exact Hc|].
  rewrite Hl. vm_compute. reflexivity.
Defined.

(** C9 (a run): on the handle of record "abc", version "1.0" gives the
    request name "abc-1.0". *)
Lemma CreateRelease_request_name_witness :
  Name (mkHandle Sim.box) = "abc"%string /\
  v1alpha2.ReleaseName
    (releaseRequest (mkHandle Sim.box)
       (mkReleaseConfig "1.0" "first release" false))
  = "abc-1.0"%string.
Proof.
  split; [reflexivity|].
  exact (proj2 (CreateRelease_request_name
                  (Sim.sysOf (Sim.worldOf 0 None false) ∅)
                  (mkReleaseConfig "1.0" "first release" false))
           (mkHandle Sim.box) "first release"%string false eq_refl).
Defined.

(** * Further operations of the handle *)

Local Open Scope string_scope.
Local Open Scope Z_scope.

(** ** Key pairs and release lists *)

(** [SSHKeyPair]: the key pair data a handle returns. *)
Record SSHKeyPair := mkSSHKeyPair {
  PublicKey : string;
  PrivateKey : string
}.

(** Modelled from the spec: the client's own key-pair record, declared
    outside the sources at hand; [GetSSHKeyPair] reads its two fields. *)
Record ClientKeyPair := mkClientKeyPair {
  clientPublicKey : string;
  clientPrivateKey : string
}.

(** Modelled from the spec: [v1alpha2.DevBoxReleaseList], declared outside
    the sources at hand; [ListReleases] reads its [Items]. *)
Record DevBoxReleaseList := mkDevBoxReleaseList {
  Items : list v1alpha2.DevBoxRelease
}.

(** Modelled from the spec: the two remaining operations of the Resource
    Client that the handle calls, listing the releases of a parent and
    fetching credential material. *)
Class SubresourceClient (World : Type) := {
  client_ListReleases :
    string -> World -> (ClientError + DevBoxReleaseList) * World;
  client_GetSSHKeyPair :
    string -> World -> (ClientError + ClientKeyPair) * World
}.

(** The loop of [ListReleases]: a slice of [len(list.Items)] nil pointers,
    whose slot [i] is set to a handle on item [i], for [i] over the range
    of the items. *)
Definition wrapReleases (items : list v1alpha2.DevBoxRelease)
    : list (option Release) :=
  fold_left
    (fun releases i =>
       match items !! i with
       | Some item => <[i := Some (mkRelease item)]> releases
       | None => releases
       end)
    (seq 0 (length items))
    (replicate (length items) None).

Section MoreMethods.

Context {World : Type} `{ResourceClient World} `{Runtime World}
  `{SubresourceClient World}.

(** A call to one of the two operations above: run it on the world.  The
    trace keeps to the calls of [Event]. *)
Definition perform {A : Type} (op : World -> A * World) : M World A :=
  fun s =>
    let (a, w) := op (world s) in
    (a, mkSys w (cache s) (self s) (trace s)).

Definition GetSSHKeyPair : M World (error + SSHKeyPair) :=
  d <- getSelf ;;
  r <- perform (client_GetSSHKeyPair (v1alpha2.Name (crd d))) ;;
  match r with
  | inl err => ret (inl (ErrClient err))
  | inr keyPair =>
      ret (inr (mkSSHKeyPair (clientPublicKey keyPair)
                             (clientPrivateKey keyPair)))
  end.

Definition ListReleases : M World (error + list (option Release)) :=
  d <- getSelf ;;
  r <- perform (client_ListReleases (v1alpha2.Name (crd d))) ;;
  match r with
  | inl err => ret (inl (ErrClient err))
  | inr list => ret (inr (wrapReleases (Items list)))
  end.

End MoreMethods.

(** ** Invariants and clocks *)

(** The handle's snapshot is the cache entry of its own name. *)
Definition coherent {World : Type} (s : Sys World) : Prop :=
  cache s !! v1alpha2.Name (crd (self s)) = Some (crd (self s)).

(** An event [WaitForReady] may cause: a reading of the clock, a poll or
    a wait. *)
Definition readOnly (ev : Event) : bool :=
  match ev with
  | EvNow _ | EvGet _ _ | EvWait _ _ => true
  | _ => false
  end.

(** The number of polls in a trace. *)
Fixpoint polls (evs : list Event) : nat :=
  match evs with
  | [] => 0
  | EvGet _ _ :: evs' => S (polls evs')
  | _ :: evs' => polls evs'
  end.

(** What a well-behaved clock gives, on the worlds that satisfy [ok]:
    [clockOf] is a time the world has reached; a reading of the clock lies
    between the time reached before and after it; a poll does not turn
    the clock back; and a wait whose timer fires lasts at least the
    interval. *)
Record ClockLaws {World : Type} `{ResourceClient World} `{Runtime World}
    (clockOf : World -> Time) (ok : World -> Prop) : Prop := mkClockLaws {
  ok_now : forall w, ok w -> ok (snd (time_Now w));
  ok_get : forall name w, ok w -> ok (snd (client_Get name w));
  ok_wait : forall interval w, ok w -> ok (snd (ctx_wait interval w));
  now_lower : forall w, ok w -> clockOf w <= fst (time_Now w);
  now_upper : forall w, ok w -> fst (time_Now w) <= clockOf (snd (time_Now w));
  get_monotone :
    forall name w, ok w -> clockOf w <= clockOf (snd (client_Get name w));
  wait_elapses :
    forall interval w,
      ok w -> fst (ctx_wait interval w) = None ->
      clockOf w + interval <= clockOf (snd (ctx_wait interval w))
}.

(** The simulated control plane extended with releases and credentials:
    two releases of the parent are listed and a fixed key pair is
    returned, unless the transport is down. *)
#[global] Instance Sim_subresources : SubresourceClient Sim.World := {
  client_ListReleases := fun name w =>
    let w := Sim.tick w in
    if Sim.down w then (inl "unavailable", w)
    else (inr (mkDevBoxReleaseList
                 [v1alpha2.mkDevBoxRelease (name ++ "-1.0")
                    (v1alpha2.mkDevBoxReleaseSpec name "1.0" "first" false)
                    (v1alpha2.mkDevBoxReleaseStatus "Success" "img:a" "img:b");
                  v1alpha2.mkDevBoxRelease (name ++ "-2.0")
                    (v1alpha2.mkDevBoxReleaseSpec name "2.0" "second" true)
                    (v1alpha2.mkDevBoxReleaseStatus "Pending" "img:b"
                       EmptyString)]), w);
  client_GetSSHKeyPair := fun name w =>
    let w := Sim.tick w in
    if Sim.down w then (inl "unavailable", w)
    else (inr (mkClientKeyPair "ssh-ed25519 AAAA" "PRIVATE"), w)
}.

Local Close Scope string_scope.

(** * Further properties *)

(** ** More on the shape of a run *)

Lemma run_success timeout deadline maxInterval mult useBackoff
    interval evs r :
  loopRun timeout deadline maxInterval mult useBackoff interval evs r ->
  r = Some None ->
  exists pre t name c,
    evs = pre ++ [EvNow t; EvGet name (inr c)] /\
    t <= deadline /\ isReady (mkHandle c) = true /\
    Forall pollNotReady pre.
Proof.
  induction 1 as [i | i t Ht | i t n err Ht | i t n c Ht Hr
                 | i t n c e Ht Hr | i t n c evs r Ht Hr Hrun IH];
    intros E; try discriminate E.
  - exists [], t, n, c. repeat split; [exact Ht | exact Hr | constructor].
  - destruct (IH E) as (pre & t' & n' & c' & -> & Ht' & Hr' & Hpre).
    exists (EvNow t :: EvGet n (inr c) :: EvWait i None :: pre), t', n', c'.
    repeat split; [exact Ht' | exact Hr' |].
    repeat (constructor; [cbn; auto|]). exact Hpre.
Qed.

Lemma run_readOnly timeout deadline maxInterval mult useBackoff
    interval evs r :
  loopRun timeout deadline maxInterval mult useBackoff interval evs r ->
  forallb readOnly evs = true.
Proof.
  induction 1; cbn; auto.
Qed.

Lemma nextInterval_clamped (mult : float) (maxInterval interval : Duration) :
  nextInterval true mult maxInterval interval <= maxInterval.
Proof.
  unfold nextInterval.
  destruct (Z.gtb_spec
              (int64_of_float64 (float64_of_int64 interval * mult)%float)
              maxInterval); lia.
Qed.

Lemma iter_id {A : Type} (n : nat) (x : A) : Nat.iter n (fun y => y) x = x.
Proof. induction n as [|n IH]; [reflexivity | exact IH]. Qed.

(** The loop of [ListReleases] after its first [k] rounds. *)
Lemma wrapReleases_rounds (items : list v1alpha2.DevBoxRelease) (k : nat) :
  (k <= length items)%nat ->
  fold_left
    (fun releases i =>
       match items !! i with
       | Some item => <[i := Some (mkRelease item)]> releases
       | None => releases
       end)
    (seq 0 k)
    (replicate (length items) None)
  = map (fun item => Some (mkRelease item)) (take k items)
    ++ replicate (length items - k) None.
Proof.
  induction k as [|k IH]; intros Hk.
  - cbn. now rewrite Nat.sub_0_r.
  - rewrite seq_S, fold_left_app, IH by lia. cbn [fold_left Nat.add].
    destruct (lookup_lt_is_Some_2 items k) as [item Eitem]; [lia|].
    rewrite Eitem, (take_S_r _ _ _ Eitem), map_app. cbn [map].
    replace (length items - k)%nat with (S (length items - S k)) by lia.
    cbn [replicate].
    set (done := map _ (take k items)).
    assert (Hlen : length done = k).
    { subst done. rewrite length_map, length_take. lia. }
    rewrite <- (Nat.add_0_r k) at 1. rewrite <- Hlen at 1.
    rewrite insert_app_r. cbn. now rewrite <- app_assoc.
Qed.

Section MoreFacts.

Context {World : Type} `{ResourceClient World} `{Runtime World}
  `{SubresourceClient World}.

(** ** What the loop does to the handle and the cache *)

Lemma waitLoop_state (timeout : Duration) (deadline : Time)
    (maxInterval : Duration) (mult : float) (useBackoff : bool)
    (fuel : nat) :
  forall (interval : Duration) (s : Sys World) r s',
    waitLoop fuel timeout deadline maxInterval mult useBackoff interval s
    = (r, s') ->
    (r = Some None ->
     isReady (self s') = true /\ coherent s' /\
     exists pre name, trace s' = pre ++ [EvGet name (inr (crd (self s')))]) /\
    (coherent s -> coherent s').
Proof.
  induction fuel as [|fuel IH]; intros interval s r s' E.
  - inversion E; subst. split; [discriminate | trivial].
  - cbn [waitLoop] in E. unfold bind, now, getSelf, sleepOrDone in E.
    rewrite call_run in E.
    destruct (Z.gtb_spec (fst (time_Now (world s))) deadline) as [Hgt|Hle].
    { inversion E; subst. split; [discriminate | trivial]. }
    rewrite RefreshInfo_run in E. cbv zeta in E. cbn [world self] in E.
    destruct (fst (client_Get _ _)) as [err|devbox] eqn:Eget.
    { inversion E; subst. split; [discriminate | trivial]. }
    cbn [self] in E.
    assert (Hco : forall (w : World) tr,
      coherent (mkSys w (cache_Set (v1alpha2.Name devbox) devbox (cache s))
                  (mkHandle devbox) tr)).
    { intros w tr. unfold coherent, cache_Set. cbn.
      apply lookup_insert_eq. }
    destruct (isReady (mkHandle devbox)) eqn:Eready.
    { inversion E; subst. cbn [self trace crd].
      split; [|intros _; apply Hco].
      intros _. split; [exact Eready|]. split; [apply Hco|].
      eexists _, _. reflexivity. }
    rewrite call_run in E. cbn [world cache self trace] in E.
    destruct (fst (ctx_wait interval _)) as [e|] eqn:Ewait.
    { inversion E; subst. split; [discriminate | intros _; apply Hco]. }
    apply IH in E. destruct E as (Hok & Hpres).
    split; [exact Hok|]. intros _. apply Hpres, Hco.
Qed.

(** X1: when [WaitForReady] returns success, the snapshot the handle
    holds shows the ready phase, it is the record the last poll returned,
    it is the cache entry of its own name, and nothing was called after
    that poll. *)
Theorem WaitForReady_success_state (fuel : nat)
    (opts : types.WaitForReadyOptions) (s : Sys World) :
  fst (WaitForReady fuel opts s) = Some None ->
  let s' := snd (WaitForReady fuel opts s) in
  Status (self s') = v1alpha2.DevboxPhaseRunning /\
  cache s' !! Name (self s') = Some (crd (self s')) /\
  exists pre t name,
    since s s' = pre ++ [EvNow t; EvGet name (inr (crd (self s')))] /\
    Forall pollNotReady pre.
Proof.
  intros Hres s'.
  destruct (WaitForReady_run fuel opts s) as (t0 & evs & Hsince & Hrun).
  destruct (run_success _ _ _ _ _ _ _ _ Hrun Hres)
    as (pre & t & name & c & -> & _ & Hready & Hpre).
  assert (Hst : isReady (self s') = true /\ coherent s' /\
                exists pre' name',
                  trace s' = pre' ++ [EvGet name' (inr (crd (self s')))]).
  { subst s'. destruct (WaitForReady fuel opts s) as [r s1] eqn:E.
    cbn [fst snd] in *. unfold WaitForReady in E. cbv zeta in E.
    unfold bind, now in E. rewrite call_run in E.
    apply waitLoop_state in E. now apply E. }
  destruct Hst as (Hr & Hco & pre' & name' & Htr).
  split.
  { unfold isReady in Hr. apply String.eqb_eq in Hr. exact Hr. }
  split; [exact Hco|].
  assert (Hc : c = crd (self s')).
  { fold s' in Hsince. unfold since in Hsince.
    assert (Hlast : last (trace s') = Some (EvGet name (inr c))).
    { rewrite <- (take_drop (length (trace s)) (trace s')), Hsince.
      rewrite app_comm_cons, !app_assoc.
      change [EvNow t; EvGet name (inr c)]
        with ([EvNow t] ++ [EvGet name (inr c)]).
      rewrite !app_assoc. apply last_snoc. }
    rewrite Htr, last_snoc in Hlast. now injection Hlast as _ <-. }
  subst c. exists (EvNow t0 :: pre), t, name. split.
  - fold s' in Hsince. now rewrite Hsince.
  - constructor; [exact I | exact Hpre].
Qed.

(** X2: if the first refresh already shows the ready phase, and the
    clock read before it is not past the deadline, [WaitForReady]
    returns success after that single poll, without waiting at all. *)
Theorem WaitForReady_immediate_readiness (fuel : nat)
    (opts : types.WaitForReadyOptions) (s : Sys World)
    (c : v1alpha2.Devbox) :
  let t0 := fst (time_Now (world s)) in
  let w1 := snd (time_Now (world s)) in
  let t1 := fst (time_Now w1) in
  let w2 := snd (time_Now w1) in
  let name := v1alpha2.Name (crd (self s)) in
  t1 <= t0 + timeoutOf opts ->
  fst (client_Get name w2) = inr c ->
  isReady (mkHandle c) = true ->
  fst (WaitForReady (S fuel) opts s) = Some None /\
  since s (snd (WaitForReady (S fuel) opts s))
  = [EvNow t0; EvNow t1; EvGet name (inr c)] /\
  waits (since s (snd (WaitForReady (S fuel) opts s))) = [] /\
  self (snd (WaitForReady (S fuel) opts s)) = mkHandle c.
Proof.
  intros t0 w1 t1 w2 name Ht Hget Hready.
  assert (E : WaitForReady (S fuel) opts s
              = (Some None,
                 mkSys (snd (client_Get name w2))
                       (cache_Set (v1alpha2.Name c) c (cache s))
                       (mkHandle c)
                       (((trace s ++ [EvNow t0]) ++ [EvNow t1])
                        ++ [EvGet name (inr c)]))).
  { unfold WaitForReady. cbv zeta. unfold bind at 1. unfold now.
    rewrite call_run. cbn [waitLoop]. unfold bind at 1. unfold now.
    rewrite call_run. cbn [world cache self trace].
    fold t0 w1 t1 w2.
    destruct (Z.gtb_spec t1 (t0 + timeoutOf opts)) as [Hgt|_]; [lia|].
    unfold bind at 1. rewrite RefreshInfo_run. cbv zeta.
    cbn [world cache self trace]. fold name. rewrite Hget.
    unfold bind, getSelf. cbn [self]. rewrite Hready. reflexivity. }
  rewrite E. cbn [fst snd self].
  assert (Hsince : since s (mkSys (snd (client_Get name w2))
                       (cache_Set (v1alpha2.Name c) c (cache s))
                       (mkHandle c)
                       (((trace s ++ [EvNow t0]) ++ [EvNow t1])
                        ++ [EvGet name (inr c)]))
                   = [EvNow t0; EvNow t1; EvGet name (inr c)]).
  { apply since_app. cbn [trace]. now rewrite <- !app_assoc. }
  rewrite Hsince. repeat split.
Qed.

(** X6: with exponential backoff enabled, the first wait lasts the
    initial interval as configured, whatever the ceiling, and every later
    wait is at most the ceiling, whatever the multiplier. *)
Theorem WaitForReady_waits_clamped (fuel : nat)
    (opts : types.WaitForReadyOptions) (s : Sys World) :
  useExponentialBackoffOf opts = true ->
  let ws := waits (since s (snd (WaitForReady fuel opts s))) in
  (forall w, ws !! 0%nat = Some w -> w = initialIntervalOf opts) /\
  (forall (n : nat) w, ws !! S n = Some w -> w <= maxIntervalOf opts).
Proof.
  intros Huse ws.
  destruct (WaitForReady_run fuel opts s) as (t0 & evs & Hsince & Hrun).
  subst ws. rewrite Hsince. cbn [waits]. rewrite Huse in Hrun. split.
  - intros w E. rewrite (run_waits _ _ _ _ _ _ _ _ Hrun _ _ E).
    cbn [Nat.iter]. unfold firstIntervalOf. now rewrite Huse.
  - intros n w E. rewrite (run_waits _ _ _ _ _ _ _ _ Hrun _ _ E).
    rewrite Nat.iter_succ. apply nextInterval_clamped.
Qed.

(** X7: with the backoff flag set to false and no positive fixed
    interval, every wait lasts the initial interval (200ms when unset):
    a fixed interval that is zero or negative counts as unset. *)
Theorem WaitForReady_backoff_off_constant (fuel : nat)
    (opts : types.WaitForReadyOptions) (s : Sys World) :
  types.UseExponentialBackoff opts = Some false ->
  types.CheckInterval opts <= 0 ->
  Forall (fun w => w = initialIntervalOf opts)
         (waits (since s (snd (WaitForReady fuel opts s)))).
Proof.
  intros Hflag Hfixed.
  assert (Huse : useExponentialBackoffOf opts = false).
  { unfold useExponentialBackoffOf. rewrite Hflag.
    now destruct (types.CheckInterval opts >? 0). }
  assert (Hfirst : firstIntervalOf opts = initialIntervalOf opts).
  { unfold firstIntervalOf.
    destruct (Z.gtb_spec (types.CheckInterval opts) 0); [lia|].
    now rewrite andb_false_r. }
  destruct (WaitForReady_run fuel opts s) as (t0 & evs & Hsince & Hrun).
  rewrite Hsince. cbn [waits]. apply Forall_lookup. intros n w E.
  rewrite (run_waits _ _ _ _ _ _ _ _ Hrun n w E), Huse, Hfirst.
  unfold nextInterval. apply iter_id.
Qed.

(** X8: [WaitForReady] only reads the clock, polls and waits: it never
    asks the client to update a state, delete the resource or create a
    release. *)
Theorem WaitForReady_read_only (fuel : nat)
    (opts : types.WaitForReadyOptions) (s : Sys World) :
  forallb readOnly (since s (snd (WaitForReady fuel opts s))) = true.
Proof.
  destruct (WaitForReady_run fuel opts s) as (t0 & evs & Hsince & Hrun).
  rewrite Hsince. cbn [forallb readOnly andb].
  exact (run_readOnly _ _ _ _ _ _ _ _ Hrun).
Qed.

(** X9: after a successful [RefreshInfo] the handle holds the record the
    client returned, the cache entry of that record's name is that
    record, and the entries of all other names are as before; the key is
    the name of the returned record, not the name that was asked for. *)
Theorem RefreshInfo_success_cache (s : Sys World) (devbox : v1alpha2.Devbox) :
  fst (client_Get (v1alpha2.Name (crd (self s))) (world s)) = inr devbox ->
  let s' := snd (RefreshInfo s) in
  fst (RefreshInfo s) = None /\
  self s' = mkHandle devbox /\
  cache s' !! Name (self s') = Some (crd (self s')) /\
  cache s' !! v1alpha2.Name devbox = Some devbox /\
  (forall k, k <> v1alpha2.Name devbox -> cache s' !! k = cache s !! k).
Proof.
  intros Hget s'. subst s'.
  pose proof (RefreshInfo_run s) as HR. cbv zeta in HR.
  rewrite Hget in HR. rewrite HR. cbn [fst snd self cache crd].
  unfold Name, cache_Set. cbn [crd].
  repeat split; try apply lookup_insert_eq.
  intros k Hk. now apply lookup_insert_ne.
Qed.

(** X10: if the handle's snapshot is the cache entry of its own name, it
    still is after [Start], [Pause], [Stop], [Shutdown], [RefreshInfo],
    [WaitForReady], [CreateRelease], [ListReleases] and [GetSSHKeyPair],
    whatever they return. *)
Theorem coherent_preserved (s : Sys World) :
  coherent s ->
  coherent (snd (Start s)) /\
  coherent (snd (Pause s)) /\
  coherent (snd (Stop s)) /\
  coherent (snd (Shutdown s)) /\
  coherent (snd (RefreshInfo s)) /\
  (forall fuel opts, coherent (snd (WaitForReady fuel opts s))) /\
  (forall cfg, coherent (snd (CreateRelease cfg s))) /\
  coherent (snd (ListReleases s)) /\
  coherent (snd (GetSSHKeyPair s)).
Proof.
  intros Hco.
  unfold Start, Pause, Stop, Shutdown, bind, getSelf.
  rewrite !clientUpdateState_run. cbn [snd].
  do 4 (split; [exact Hco|]).
  split.
  { pose proof (RefreshInfo_run s) as HR. cbv zeta in HR. rewrite HR.
    destruct (fst (client_Get _ (world s))); cbn [snd]; [exact Hco|].
    unfold coherent, cache_Set. cbn. apply lookup_insert_eq. }
  split.
  { intros fuel opts.
    destruct (WaitForReady fuel opts s) as [r s'] eqn:E.
    unfold WaitForReady in E. cbv zeta in E. unfold bind, now in E.
    rewrite call_run in E. apply waitLoop_state in E.
    cbn [snd]. now apply E. }
  split.
  { intros cfg. unfold CreateRelease, bind, getSelf, clientCreateRelease.
    rewrite call_run.
    destruct (fst (client_CreateRelease _ (world s))); exact Hco. }
  split.
  - unfold ListReleases, bind, getSelf, perform.
    destruct (client_ListReleases _ (world s)) as [[err|l] w]; exact Hco.
  - unfold GetSSHKeyPair, bind, getSelf, perform.
    destruct (client_GetSSHKeyPair _ (world s)) as [[err|k] w]; exact Hco.
Qed.

(** X11: [Delete] never changes the snapshot the handle holds, so the
    accessors answer as before even after a successful delete; it leaves
    the cache entries of all other names as they were; and when the cache
    has no entry of the handle's name it leaves the whole cache as it
    was. *)
Theorem Delete_frame (s : Sys World) :
  let name := v1alpha2.Name (crd (self s)) in
  self (snd (Delete s)) = self s /\
  observe (self (snd (Delete s))) = observe (self s) /\
  (forall k, k <> name -> cache (snd (Delete s)) !! k = cache s !! k) /\
  (cache s !! name = None -> cache (snd (Delete s)) = cache s).
Proof.
  cbv zeta. pose proof (Delete_run s) as HD. cbv zeta in HD. rewrite HD.
  destruct (fst (client_Delete _ (world s))); cbn [fst snd self cache];
    repeat split; unfold cache_Delete.
  - intros k Hk. now apply lookup_delete_ne.
  - intros Hnone. now apply delete_id.
Qed.

(** X12: [ListReleases] returns one release handle per item of the list
    the client returned, in the same order, each on its own item, and no
    slot is left nil; an empty list gives an empty result, and an error
    of the client is returned as it is, with no list. *)
Theorem ListReleases_wraps_items (s : Sys World) :
  match fst (client_ListReleases (v1alpha2.Name (crd (self s))) (world s))
  with
  | inl err => fst (ListReleases s) = inl (ErrClient err)
  | inr list =>
      fst (ListReleases s)
      = inr (map (fun item => Some (mkRelease item)) (Items list))
  end.
Proof.
  unfold ListReleases, bind, getSelf, perform.
  destruct (client_ListReleases _ (world s)) as [[err|l] w]; cbn [fst];
    [reflexivity|].
  unfold ret. cbn [fst]. f_equal. unfold wrapReleases.
  rewrite wrapReleases_rounds by lia.
  now rewrite firstn_all, Nat.sub_diag, app_nil_r.
Qed.

(** X13: [CreateRelease], [ListReleases] and [GetSSHKeyPair] change
    neither the snapshot the handle holds nor the cache (a created
    release is not cached), and [GetSSHKeyPair] hands back the client's
    two keys, or the client's error, as they are. *)
Theorem subresource_calls_frame (s : Sys World) (cfg : ReleaseConfig) :
  (self (snd (CreateRelease cfg s)) = self s /\
   cache (snd (CreateRelease cfg s)) = cache s) /\
  (self (snd (ListReleases s)) = self s /\
   cache (snd (ListReleases s)) = cache s) /\
  (self (snd (GetSSHKeyPair s)) = self s /\
   cache (snd (GetSSHKeyPair s)) = cache s) /\
  match fst (client_CreateRelease (releaseRequest (self s) cfg) (world s))
  with
  | inl err => fst (CreateRelease cfg s) = inl (ErrClient err)
  | inr created => fst (CreateRelease cfg s) = inr (mkRelease created)
  end /\
  match fst (client_GetSSHKeyPair (v1alpha2.Name (crd (self s))) (world s))
  with
  | inl err => fst (GetSSHKeyPair s) = inl (ErrClient err)
  | inr keyPair =>
      fst (GetSSHKeyPair s)
      = inr (mkSSHKeyPair (clientPublicKey keyPair)
                          (clientPrivateKey keyPair))
  end.
Proof.
  unfold CreateRelease, ListReleases, GetSSHKeyPair, bind, getSelf,
    clientCreateRelease, perform.
  rewrite call_run.
  destruct (client_ListReleases _ (world s)) as [[e1|l] w1];
    destruct (client_GetSSHKeyPair _ (world s)) as [[e2|k] w2];
    destruct (fst (client_CreateRelease _ (world s))); repeat split.
Qed.

(** ** Fuel *)

Lemma polls_app (evs1 evs2 : list Event) :
  polls (evs1 ++ evs2) = (polls evs1 + polls evs2)%nat.
Proof.
  induction evs1 as [|ev evs1 IH]; [reflexivity|].
  destruct ev; cbn; rewrite IH; reflexivity.
Qed.

(** A loop that has returned returns the same with more fuel. *)
Lemma waitLoop_fuel_mono (timeout : Duration) (deadline : Time)
    (maxInterval : Duration) (mult : float) (useBackoff : bool)
    (fuel : nat) :
  forall (interval : Duration) (s : Sys World) r s' (k : nat),
    waitLoop fuel timeout deadline maxInterval mult useBackoff interval s
    = (Some r, s') ->
    waitLoop (fuel + k) timeout deadline maxInterval mult useBackoff
      interval s = (Some r, s').
Proof.
  induction fuel as [|fuel IH]; intros interval s r s' k E.
  - discriminate E.
  - cbn [Nat.add waitLoop] in *. unfold bind in *.
    destruct (now s) as [t s1].
    destruct (t >? deadline); [exact E|].
    destruct (RefreshInfo s1) as [[err|] s2]; [exact E|].
    destruct (getSelf s2) as [d s3].
    destruct (isReady d); [exact E|].
    destruct (sleepOrDone interval s3) as [[e|] s4]; [exact E|].
    now apply IH.
Qed.

(** A loop makes at most one poll per iteration. *)
Lemma waitLoop_polls (timeout : Duration) (deadline : Time)
    (maxInterval : Duration) (mult : float) (useBackoff : bool)
    (fuel : nat) :
  forall (interval : Duration) (s : Sys World) r s',
    waitLoop fuel timeout deadline maxInterval mult useBackoff interval s
    = (r, s') ->
    exists evs, trace s' = trace s ++ evs /\ (polls evs <= fuel)%nat.
Proof.
  induction fuel as [|fuel IH]; intros interval s r s' E.
  - inversion E; subst. exists []. now rewrite app_nil_r.
  - cbn [waitLoop] in E. unfold bind, now, getSelf, sleepOrDone in E.
    rewrite call_run in E.
    destruct (fst (time_Now (world s)) >? deadline).
    { inversion E; subst. eexists [_]. cbn. split; [reflexivity | cbn; lia]. }
    rewrite RefreshInfo_run in E. cbv zeta in E. cbn [world self] in E.
    destruct (fst (client_Get _ _)) as [err|devbox].
    { inversion E; subst. eexists [_; _]. cbn [trace].
      rewrite <- app_assoc. cbn. split; [reflexivity | cbn; lia]. }
    cbn [self] in E.
    destruct (isReady (mkHandle devbox)).
    { inversion E; subst. eexists [_; _]. cbn [trace].
      rewrite <- app_assoc. cbn. split; [reflexivity | cbn; lia]. }
    rewrite call_run in E. cbn [world cache self trace] in E.
    destruct (fst (ctx_wait interval _)) as [e|].
    { inversion E; subst. eexists [_; _; _]. cbn [trace].
      rewrite <- !app_assoc. cbn. split; [reflexivity | cbn; lia]. }
    apply IH in E. destruct E as (evs & Etr & Hpolls).
    eexists (_ :: _ :: _ :: evs). rewrite Etr. cbn [trace].
    rewrite <- !app_assoc. cbn. split; [reflexivity | cbn; lia].
Qed.

Lemma WaitForReady_fuel_mono (fuel : nat) (opts : types.WaitForReadyOptions)
    (s : Sys World) r s' (k : nat) :
  WaitForReady fuel opts s = (Some r, s') ->
  WaitForReady (fuel + k) opts s = (Some r, s').
Proof.
  unfold WaitForReady. cbv zeta. unfold bind.
  destruct (now s) as [t0 s1]. apply waitLoop_fuel_mono.
Qed.

Lemma WaitForReady_polls (fuel : nat) (opts : types.WaitForReadyOptions)
    (s : Sys World) :
  (polls (since s (snd (WaitForReady fuel opts s))) <= fuel)%nat.
Proof.
  destruct (WaitForReady fuel opts s) as [r s'] eqn:E.
  unfold WaitForReady in E. cbv zeta in E. unfold bind, now in E.
  rewrite call_run in E. apply waitLoop_polls in E.
  destruct E as (evs & Etr & Hpolls). cbn [snd].
  rewrite (since_app s s' (EvNow (fst (time_Now (world s))) :: evs)).
  - exact Hpolls.
  - rewrite Etr. cbn [trace]. now rewrite <- app_assoc.
Qed.

(** ** Termination under a well-behaved clock *)

Section Clock.

Variables (clockOf : World -> Time) (ok : World -> Prop).
Hypothesis laws : ClockLaws clockOf ok.

Lemma waitLoop_returns (timeout : Duration) (deadline : Time)
    (maxInterval : Duration) (mult : float) (useBackoff : bool)
    (delta : Duration) (fuel : nat) :
  0 < delta ->
  forall (interval : Duration) (s : Sys World),
    ok (world s) ->
    (forall n : nat,
       delta <= Nat.iter n (nextInterval useBackoff mult maxInterval)
                  interval) ->
    deadline < clockOf (world s) + delta * Z.of_nat fuel ->
    exists r,
      fst (waitLoop (S fuel) timeout deadline maxInterval mult useBackoff
             interval s) = Some r.
Proof.
  intros Hdelta.
  induction fuel as [|fuel IH]; intros interval s Hok Hsched Hfuel.
  - cbn [waitLoop]. unfold bind, now. rewrite call_run.
    pose proof (now_lower _ _ laws _ Hok) as Hnow.
    destruct (Z.gtb_spec (fst (time_Now (world s))) deadline) as [Hgt|Hle];
      [|lia].
    eexists. reflexivity.
  - remember (S fuel) as fuel1 eqn:Efuel1.
    cbn [waitLoop]. unfold bind at 1. unfold now. rewrite call_run.
    pose proof (now_lower _ _ laws _ Hok) as Hnow.
    pose proof (now_upper _ _ laws _ Hok) as Hnow'.
    pose proof (ok_now _ _ laws _ Hok) as Hok1.
    destruct (Z.gtb_spec (fst (time_Now (world s))) deadline) as [Hgt|Hle].
    { eexists. reflexivity. }
    unfold bind at 1. rewrite RefreshInfo_run. cbv zeta. cbn [world self].
    set (name := v1alpha2.Name (crd (self s))).
    set (w1 := snd (time_Now (world s))) in *.
    pose proof (get_monotone _ _ laws name _ Hok1) as Hget.
    pose proof (ok_get _ _ laws name _ Hok1) as Hok2.
    destruct (fst (client_Get name w1)) as [err|devbox] eqn:Eget.
    { eexists. reflexivity. }
    unfold bind at 1. unfold getSelf at 1. cbn [self].
    destruct (isReady (mkHandle devbox)) eqn:Eready.
    { eexists. reflexivity. }
    unfold bind at 1. unfold sleepOrDone. rewrite call_run.
    cbn [world cache self trace].
    set (w2 := snd (client_Get name w1)) in *.
    pose proof (ok_wait _ _ laws interval _ Hok2) as Hok3.
    pose proof (wait_elapses _ _ laws interval _ Hok2) as Hwait.
    destruct (fst (ctx_wait interval w2)) as [e|] eqn:Ewait.
    { eexists. reflexivity. }
    subst fuel1. apply IH.
    + exact Hok3.
    + intros n. rewrite <- Nat.iter_succ_r. apply Hsched.
    + cbn [world]. specialize (Hwait eq_refl).
      pose proof (Hsched 0%nat) as H0i. cbn in H0i. lia.
Qed.

Lemma WaitForReady_returns (opts : types.WaitForReadyOptions)
    (delta : Duration) (fuel : nat) (s : Sys World) :
  0 < delta ->
  ok (world s) ->
  (forall n : nat,
     delta <= Nat.iter n
                (nextInterval (useExponentialBackoffOf opts)
                   (backoffMultiplierOf opts) (maxIntervalOf opts))
                (firstIntervalOf opts)) ->
  timeoutOf opts < delta * Z.of_nat fuel ->
  exists r, fst (WaitForReady (S fuel) opts s) = Some r.
Proof.
  intros Hdelta Hok Hsched Hfuel.
  unfold WaitForReady. cbv zeta. unfold bind at 1. unfold now.
  rewrite call_run.
  apply (waitLoop_returns _ _ _ _ _ delta fuel Hdelta).
  - cbn [world]. now apply (ok_now _ _ laws).
  - exact Hsched.
  - cbn [world]. pose proof (now_upper _ _ laws _ Hok). lia.
Qed.

Lemma WaitForReady_returns_for_good (opts : types.WaitForReadyOptions)
    (delta : Duration) (fuel : nat) (s : Sys World) :
  0 < delta ->
  ok (world s) ->
  (forall n : nat,
     delta <= Nat.iter n
                (nextInterval (useExponentialBackoffOf opts)
                   (backoffMultiplierOf opts) (maxIntervalOf opts))
                (firstIntervalOf opts)) ->
  timeoutOf opts < delta * Z.of_nat fuel ->
  exists r,
    forall k : nat,
      fst (WaitForReady (S fuel + k) opts s) = Some r /\
      (polls (since s (snd (WaitForReady (S fuel + k) opts s))) <= S fuel)%nat.
Proof.
  intros Hdelta Hok Hsched Hfuel.
  destruct (WaitForReady_returns opts delta fuel s Hdelta Hok Hsched Hfuel)
    as (r & Hr).
  exists r. intros k.
  pose proof (WaitForReady_polls (S fuel) opts s) as Hpolls.
  destruct (WaitForReady (S fuel) opts s) as [r0 s'] eqn:E.
  cbn [fst snd] in Hr, Hpolls. subst r0.
  rewrite (WaitForReady_fuel_mono _ _ _ _ _ k E). cbn [fst snd].
  split; [reflexivity | exact Hpolls].
Qed.

(** X3: on a well-behaved clock, a wait at a positive fixed interval
    returns, and after a bounded number of polls: if [n] intervals exceed
    the timeout, [WaitForReady] returns a result (ready, an error of the
    client, a cancellation or the timeout error) within [n + 1]
    iterations, the same result however many more it is allowed, having
    polled at most [n + 1] times. *)
Theorem WaitForReady_fixed_interval_returns
    (opts : types.WaitForReadyOptions) (fuel : nat) (s : Sys World) :
  types.CheckInterval opts > 0 ->
  ok (world s) ->
  timeoutOf opts < types.CheckInterval opts * Z.of_nat fuel ->
  exists r,
    forall k : nat,
      fst (WaitForReady (S fuel + k) opts s) = Some r /\
      (polls (since s (snd (WaitForReady (S fuel + k) opts s))) <= S fuel)%nat.
Proof.
  intros Hpos Hok Hfuel.
  assert (Huse : useExponentialBackoffOf opts = false).
  { unfold useExponentialBackoffOf.
    destruct (Z.gtb_spec (types.CheckInterval opts) 0); [reflexivity | lia]. }
  assert (Hfirst : firstIntervalOf opts = types.CheckInterval opts).
  { unfold firstIntervalOf. rewrite Huse.
    destruct (Z.gtb_spec (types.CheckInterval opts) 0); [reflexivity | lia]. }
  apply (WaitForReady_returns_for_good opts (types.CheckInterval opts)
           fuel s); [lia | exact Hok | | exact Hfuel].
  intros n. rewrite Huse, Hfirst. unfold nextInterval.
  rewrite iter_id. lia.
Qed.

(** X4: on a well-behaved clock, a wait with the default backoff options
    returns, and after a bounded number of polls: every interval is at
    least 200ms, so if [n] times 200ms exceed the timeout, [WaitForReady]
    returns a result within [n + 1] iterations, the same result however
    many more it is allowed, having polled at most [n + 1] times. *)
Theorem WaitForReady_default_backoff_returns
    (opts : types.WaitForReadyOptions) (fuel : nat) (s : Sys World) :
  initialIntervalOf opts = 200 * Millisecond ->
  maxIntervalOf opts = 5 * Second ->
  backoffMultiplierOf opts = 1.5%float ->
  useExponentialBackoffOf opts = true ->
  ok (world s) ->
  timeoutOf opts < 200 * Millisecond * Z.of_nat fuel ->
  exists r,
    forall k : nat,
      fst (WaitForReady (S fuel + k) opts s) = Some r /\
      (polls (since s (snd (WaitForReady (S fuel + k) opts s))) <= S fuel)%nat.
Proof.
  intros Hinit Hmax Hmult Huse Hok Hfuel.
  apply (WaitForReady_returns_for_good opts (200 * Millisecond) fuel s);
    [reflexivity | exact Hok | | exact Hfuel].
  intros n. unfold firstIntervalOf. rewrite Huse, Hmult, Hmax, Hinit.
  cbn [negb andb]. rewrite defaultSchedule_iter.
  apply defaultSchedule_step.
Qed.

(** X5: on a well-behaved clock, a negative timeout makes [WaitForReady]
    return the timeout error at once: the clock is read twice, the
    client is never called, and the handle and the cache are as before. *)
Theorem WaitForReady_negative_timeout
    (opts : types.WaitForReadyOptions) (fuel : nat) (s : Sys World) :
  types.Timeout opts < 0 ->
  ok (world s) ->
  fst (WaitForReady (S fuel) opts s)
  = Some (Some (timeoutError (types.Timeout opts))) /\
  since s (snd (WaitForReady (S fuel) opts s))
  = [EvNow (fst (time_Now (world s)));
     EvNow (fst (time_Now (snd (time_Now (world s)))))] /\
  self (snd (WaitForReady (S fuel) opts s)) = self s /\
  cache (snd (WaitForReady (S fuel) opts s)) = cache s.
Proof.
  intros Hneg Hok.
  assert (Htimeout : timeoutOf opts = types.Timeout opts).
  { unfold timeoutOf.
    destruct (Z.eqb_spec (types.Timeout opts) 0); [lia | reflexivity]. }
  pose proof (now_upper _ _ laws _ Hok) as Hup.
  pose proof (now_lower _ _ laws _ (ok_now _ _ laws _ Hok)) as Hlow.
  assert (E : WaitForReady (S fuel) opts s
              = (Some (Some (timeoutError (types.Timeout opts))),
                 mkSys (snd (time_Now (snd (time_Now (world s)))))
                   (cache s) (self s)
                   ((trace s ++ [EvNow (fst (time_Now (world s)))])
                    ++ [EvNow (fst (time_Now (snd (time_Now (world s)))))]))).
  { unfold WaitForReady. cbv zeta. unfold bind at 1. unfold now.
    rewrite call_run. cbn [waitLoop]. unfold bind at 1. unfold now.
    rewrite call_run. cbn [world cache self trace]. rewrite Htimeout.
    destruct (Z.gtb_spec (fst (time_Now (snd (time_Now (world s)))))
                (fst (time_Now (world s)) + types.Timeout opts)) as [_|Hle];
      [reflexivity | lia]. }
  rewrite E. cbn [fst snd self cache]. repeat split.
  apply since_app. cbn [trace]. now rewrite <- app_assoc.
Qed.

End Clock.

End MoreFacts.

(** ** More on the connection string *)

Lemma append_not_empty (p : string) (a : ascii) (t : string) :
  p +:+ String a t <> EmptyString.
Proof. destruct p; discriminate. Qed.

(** X14: the connection string is empty exactly when the network kind is
    neither SSHGate nor NodePort; in particular it is empty for a Tailnet
    network. *)
Theorem SSHConnectionString_empty_iff (d : Devbox) :
  (SSHConnectionString d = EmptyString <->
   NetworkType d <> v1alpha2.NetworkTypeSSHGate /\
   NetworkType d <> v1alpha2.NetworkTypeNodePort) /\
  (NetworkType d = v1alpha2.NetworkTypeTailnet ->
   SSHConnectionString d = EmptyString).
Proof.
  assert (Hiff : SSHConnectionString d = EmptyString <->
                 NetworkType d <> v1alpha2.NetworkTypeSSHGate /\
                 NetworkType d <> v1alpha2.NetworkTypeNodePort).
  { split.
    - intros E. split; intros Hkind.
      + rewrite (SSHConnectionString_gate d Hkind) in E.
        exact (append_not_empty _ _ _ E).
      + rewrite (SSHConnectionString_nodeport d Hkind) in E.
        exact (append_not_empty _ _ _ E).
    - intros [Hg Hn]. now apply SSHConnectionString_other. }
  split; [exact Hiff|].
  intros Hkind. apply Hiff. rewrite Hkind. split; discriminate.
Qed.


(** ** The simulated clock is well behaved *)

Lemma Sim_clock_laws :
  ClockLaws Sim.clock (fun w => 0 <= Sim.latency w).
Proof.
  constructor.
  - intros w Hw. exact Hw.
  - intros name w Hw. cbn. unfold Sim.get.
    destruct (Sim.down (Sim.tick w)); [exact Hw|].
    destruct (Sim.remote (Sim.tick w) !! name); exact Hw.
  - intros interval w Hw. cbn. unfold Sim.wait.
    destruct (Sim.cancelAt w) as [c|]; [|exact Hw].
    destruct (c <? Sim.clock w + Z.max 0 interval); exact Hw.
  - intros w Hw. cbn. lia.
  - intros w Hw. cbn. lia.
  - intros name w Hw. cbn. unfold Sim.get.
    destruct (Sim.down (Sim.tick w)); [cbn; lia|].
    destruct (Sim.remote (Sim.tick w) !! name); cbn; lia.
  - intros interval w Hw. cbn. unfold Sim.wait.
    destruct (Sim.cancelAt w) as [c|]; [|cbn; lia].
    destruct (c <? Sim.clock w + Z.max 0 interval); [discriminate|].
    cbn. lia.
Qed.

(** ** More runs on the simulated control plane *)

(** X1 (a run): the record becomes ready after 2s; the wait succeeds on
    its sixth poll and the handle then shows the phase Running. *)
Lemma WaitForReady_success_state_witness :
  let s := Sim.sysOf (Sim.worldOf (2 * Second) None false) ∅ in
  let s' := snd (WaitForReady 20 types.zeroOptions s) in
  fst (WaitForReady 20 types.zeroOptions s) = Some None /\
  length (waits (since s s')) = 5%nat /\
  Status (self s') = v1alpha2.DevboxPhaseRunning /\
  cache s' !! Name (self s') = Some (crd (self s')) /\
  exists pre t name,
    since s s' = pre ++ [EvNow t; EvGet name (inr (crd (self s')))] /\
    Forall pollNotReady pre.
Proof.
  cbv zeta.
  assert (Hres : fst (WaitForReady 20 types.zeroOptions
                        (Sim.sysOf (Sim.worldOf (2 * Second) None false) ∅))
                 = Some None) by (vm_compute; reflexivity).
  split; [exact Hres|]. split; [vm_compute; reflexivity|].
  exact (WaitForReady_success_state 20 types.zeroOptions _ Hres).
Defined.

(** X2 (a run): the record is ready from the start; the wait succeeds
    after one poll and no wait. *)
Lemma WaitForReady_immediate_readiness_witness :
  let s := Sim.sysOf (Sim.worldOf 0 None false) ∅ in
  fst (client_Get "abc" (world s)) = inr (Sim.withPhase Sim.box "Running") /\
  fst (WaitForReady 1 types.zeroOptions s) = Some None /\
  since s (snd (WaitForReady 1 types.zeroOptions s))
  = [EvNow 0; EvNow 0; EvGet "abc" (inr (Sim.withPhase Sim.box "Running"))] /\
  waits (since s (snd (WaitForReady 1 types.zeroOptions s))) = [] /\
  self (snd (WaitForReady 1 types.zeroOptions s))
  = mkHandle (Sim.withPhase Sim.box "Running").
Proof.
  cbv zeta. split; [reflexivity|].
  assert (Ht : 0 <= 0 + timeoutOf types.zeroOptions)
    by (vm_compute; discriminate).
  exact (WaitForReady_immediate_readiness 0 types.zeroOptions
           (Sim.sysOf (Sim.worldOf 0 None false) ∅)
           (Sim.withPhase Sim.box "Running") Ht eq_refl eq_refl).
Defined.

(** X3 (a run): fixed interval 1s, timeout 3s, a record never ready in
    that time: five iterations are enough for the wait to return. *)
Lemma WaitForReady_fixed_interval_returns_witness :
  let opts := types.mkWaitForReadyOptions (3 * Second) 0 0 0%float None
                Second in
  let s := Sim.sysOf (Sim.worldOf (60 * Second) None false) ∅ in
  types.CheckInterval opts > 0 /\
  0 <= Sim.latency (world s) /\
  timeoutOf opts < types.CheckInterval opts * Z.of_nat 4 /\
  exists r,
    forall k : nat,
      fst (WaitForReady (5 + k) opts s) = Some r /\
      (polls (since s (snd (WaitForReady (5 + k) opts s))) <= 5)%nat.
Proof.
  cbv zeta. split; [reflexivity|]. split; [vm_compute; discriminate|].
  split; [reflexivity|].
  apply (WaitForReady_fixed_interval_returns Sim.clock
           (fun w => 0 <= Sim.latency w) Sim_clock_laws
           (types.mkWaitForReadyOptions (3 * Second) 0 0 0%float None Second)
           4 (Sim.sysOf (Sim.worldOf (60 * Second) None false) ∅)).
  - reflexivity.
  - vm_compute. discriminate.
  - reflexivity.
Defined.

(** X4 (a run): default backoff, timeout 1s, a record never ready in that
    time: seven iterations are enough for the wait to return. *)
Lemma WaitForReady_default_backoff_returns_witness :
  let opts := types.mkWaitForReadyOptions Second 0 0 0%float None 0 in
  let s := Sim.sysOf (Sim.worldOf (60 * Second) None false) ∅ in
  timeoutOf opts < 200 * Millisecond * Z.of_nat 6 /\
  exists r,
    forall k : nat,
      fst (WaitForReady (7 + k) opts s) = Some r /\
      (polls (since s (snd (WaitForReady (7 + k) opts s))) <= 7)%nat.
Proof.
  cbv zeta. split; [reflexivity|].
  apply (WaitForReady_default_backoff_returns Sim.clock
           (fun w => 0 <= Sim.latency w) Sim_clock_laws
           (types.mkWaitForReadyOptions Second 0 0 0%float None 0)
           6 (Sim.sysOf (Sim.worldOf (60 * Second) None false) ∅)
           eq_refl eq_refl eq_refl eq_refl).
  - vm_compute. discriminate.
  - reflexivity.
Defined.

(** X5 (a run): with a timeout of -1s the wait returns the timeout error
    without calling the client, though the record is ready. *)
Lemma WaitForReady_negative_timeout_witness :
  let opts := types.mkWaitForReadyOptions (- Second) 0 0 0%float None 0 in
  let s := Sim.sysOf (Sim.worldOf 0 None false) ∅ in
  types.Timeout opts < 0 /\
  fst (WaitForReady 1 opts s) = Some (Some (timeoutError (- Second))) /\
  since s (snd (WaitForReady 1 opts s)) = [EvNow 0; EvNow 0].
Proof.
  cbv zeta. split; [reflexivity|].
  destruct (WaitForReady_negative_timeout Sim.clock
              (fun w => 0 <= Sim.latency w) Sim_clock_laws
              (types.mkWaitForReadyOptions (- Second) 0 0 0%float None 0)
              0 (Sim.sysOf (Sim.worldOf 0 None false) ∅))
    as (Hr & Hs & _).
  - reflexivity.
  - vm_compute. discriminate.
  - split; [exact Hr | exact Hs].
Defined.

(** X6 (a run): initial interval 10s above a ceiling of 5s: the first
    wait lasts 10s and the later ones 5s. *)
Lemma WaitForReady_waits_clamped_witness :
  let opts := types.mkWaitForReadyOptions 0 (10 * Second) (5 * Second)
                0%float None 0 in
  let s := Sim.sysOf (Sim.worldOf (600 * Second) None false) ∅ in
  useExponentialBackoffOf opts = true /\
  waits (since s (snd (WaitForReady 3 opts s)))
  = [10 * Second; 5 * Second; 5 * Second] /\
  (forall w,
     waits (since s (snd (WaitForReady 3 opts s))) !! 0%nat = Some w ->
     w = initialIntervalOf opts) /\
  (forall (n : nat) w,
     waits (since s (snd (WaitForReady 3 opts s))) !! S n = Some w ->
     w <= maxIntervalOf opts).
Proof.
  cbv zeta. split; [reflexivity|]. split; [vm_compute; reflexivity|].
  apply (WaitForReady_waits_clamped 3
           (types.mkWaitForReadyOptions 0 (10 * Second) (5 * Second)
              0%float None 0)
           (Sim.sysOf (Sim.worldOf (600 * Second) None false) ∅)).
  reflexivity.
Defined.

(** X7 (a run): backoff flag false and a fixed interval of -5ns: every
    wait lasts the default initial interval, 200ms. *)
Lemma WaitForReady_backoff_off_constant_witness :
  let opts := types.mkWaitForReadyOptions 0 0 0 0%float (Some false) (-5) in
  let s := Sim.sysOf (Sim.worldOf (60 * Second) None false) ∅ in
  types.UseExponentialBackoff opts = Some false /\
  types.CheckInterval opts <= 0 /\
  waits (since s (snd (WaitForReady 4 opts s)))
  = [200 * Millisecond; 200 * Millisecond; 200 * Millisecond;
     200 * Millisecond] /\
  Forall (fun w => w = initialIntervalOf opts)
    (waits (since s (snd (WaitForReady 4 opts s)))).
Proof.
  cbv zeta. split; [reflexivity|]. split; [vm_compute; discriminate|].
  split; [vm_compute; reflexivity|].
  apply (WaitForReady_backoff_off_constant 4
           (types.mkWaitForReadyOptions 0 0 0 0%float (Some false) (-5))
           (Sim.sysOf (Sim.worldOf (60 * Second) None false) ∅)).
  - reflexivity.
  - vm_compute. discriminate.
Defined.

(** X9 (a run): a refresh of the handle on "abc" with an empty cache
    leaves the cache holding the returned record under "abc". *)
Lemma RefreshInfo_success_cache_witness :
  let s := Sim.sysOf (Sim.worldOf 0 None false) ∅ in
  let c := Sim.withPhase Sim.box "Running" in
  fst (client_Get (v1alpha2.Name (crd (self s))) (world s)) = inr c /\
  fst (RefreshInfo s) = None /\
  self (snd (RefreshInfo s)) = mkHandle c /\
  cache (snd (RefreshInfo s)) !! "abc"%string = Some c.
Proof.
  cbv zeta.
  assert (Hget :
    fst (client_Get
           (v1alpha2.Name
              (crd (self (Sim.sysOf (Sim.worldOf 0 None false) ∅))))
           (world (Sim.sysOf (Sim.worldOf 0 None false) ∅)))
    = inr (Sim.withPhase Sim.box "Running")) by reflexivity.
  split; [exact Hget|].
  destruct (RefreshInfo_success_cache _ _ Hget) as (Hr & Hs & _ & Hc & _).
  split; [exact Hr|]. split; [exact Hs | exact Hc].
Defined.

(** X10 (a run): a handle on "abc" whose snapshot is the cache entry of
    "abc" keeps that property through [Start] and through a wait. *)
Lemma coherent_preserved_witness :
  let s := Sim.sysOf (Sim.worldOf (2 * Second) None false)
             {[ "abc"%string := Sim.box ]} in
  coherent s /\
  coherent (snd (Start s)) /\
  coherent (snd (WaitForReady 20 types.zeroOptions s)).
Proof.
  cbv zeta.
  assert (Hco : coherent (Sim.sysOf (Sim.worldOf (2 * Second) None false)
                            {[ "abc"%string := Sim.box ]}))
    by (vm_compute; reflexivity).
  split; [exact Hco|].
  destruct (coherent_preserved _ Hco) as (Hstart & _ & _ & _ & _ & Hwait & _).
  split; [exact Hstart | exact (Hwait 20%nat types.zeroOptions)].
Defined.


(** ** The outcome is decided by the last call *)

Lemma run_outcome timeout deadline maxInterval mult useBackoff
    interval evs r :
  loopRun timeout deadline maxInterval mult useBackoff interval evs r ->
  match r with
  | None => evs = [] \/ exists pre j, evs = pre ++ [EvWait j None]
  | Some None =>
      exists pre name c,
        evs = pre ++ [EvGet name (inr c)] /\ isReady (mkHandle c) = true
  | Some (Some (ErrClient e)) =>
      exists pre name, evs = pre ++ [EvGet name (inl e)]
  | Some (Some (ErrContext e)) =>
      exists pre j, evs = pre ++ [EvWait j (Some e)]
  | Some (Some (ErrTimeout te)) =>
      exists pre t, evs = pre ++ [EvNow t] /\ t > deadline
  end.
Proof.
  induction 1 as [i | i t Ht | i t n err Ht | i t n c Ht Hr
                 | i t n c e Ht Hr | i t n c evs r Ht Hr Hrun IH].
  - now left.
  - now exists [], t.
  - now exists [EvNow t], n.
  - now exists [EvNow t], n, c.
  - now exists [EvNow t; EvGet n (inr c)], i.
  - set (head := [EvNow t; EvGet n (inr c)]).
    destruct r as [[[e|e|te]|]|].
    + destruct IH as (pre & name & ->).
      now exists (head ++ EvWait i None :: pre), name.
    + destruct IH as (pre & j & ->).
      now exists (head ++ EvWait i None :: pre), j.
    + destruct IH as (pre & t' & -> & Ht').
      now exists (head ++ EvWait i None :: pre), t'.
    + destruct IH as (pre & name & c' & -> & Hc').
      now exists (head ++ EvWait i None :: pre), name, c'.
    + right. destruct IH as [->|(pre & j & ->)].
      * now exists head, i.
      * now exists (head ++ EvWait i None :: pre), j.
Qed.

Section Outcome.

Context {World : Type} `{ResourceClient World} `{Runtime World}.

(** X16: the result of [WaitForReady] is decided by its last call.
    Success comes right after a poll that showed the ready phase; an
    error of the client is the error of a failed poll made last; a
    context error is the error of a cancelled wait made last; the timeout
    error comes right after a reading of the clock past the deadline.  So
    the wait never makes up an error of the client or of the context. *)
Theorem WaitForReady_outcome_by_last_call (fuel : nat)
    (opts : types.WaitForReadyOptions) (s : Sys World) :
  let evs := since s (snd (WaitForReady fuel opts s)) in
  match fst (WaitForReady fuel opts s) with
  | None => True
  | Some None =>
      exists pre name c,
        evs = pre ++ [EvGet name (inr c)] /\ isReady (mkHandle c) = true
  | Some (Some (ErrClient e)) =>
      exists pre name, evs = pre ++ [EvGet name (inl e)]
  | Some (Some (ErrContext e)) =>
      exists pre j, evs = pre ++ [EvWait j (Some e)]
  | Some (Some (ErrTimeout te)) =>
      exists pre t0 t,
        evs = EvNow t0 :: pre ++ [EvNow t] /\ t > t0 + timeoutOf opts
  end.
Proof.
  cbv zeta.
  destruct (WaitForReady_run fuel opts s) as (t0 & evs & Hsince & Hrun).
  rewrite Hsince. apply run_outcome in Hrun.
  destruct (fst (WaitForReady fuel opts s)) as [[[e|e|te]|]|]; [| | | |exact I].
  - destruct Hrun as (pre & name & ->). now exists (EvNow t0 :: pre), name.
  - destruct Hrun as (pre & j & ->). now exists (EvNow t0 :: pre), j.
  - destruct Hrun as (pre & t & -> & Ht). now exists pre, t0, t.
  - destruct Hrun as (pre & name & c & -> & Hc).
    now exists (EvNow t0 :: pre), name, c.
Qed.

End Outcome.
